(** * Flight profitability planner (planning.js): model and verified properties

    The development has these layers.

    - [JS]: the part of the JavaScript runtime that planning.js calls
      (String.prototype.split / trim / includes / replace, Array.prototype.find
      and join, parseInt, parseFloat, Number::toString, Number.prototype.toFixed
      and the Number operators), written after ECMA-262.  Numbers are IEEE-754
      binary64 values, here Rocq's primitive [float]; strings are the UTF-8
      bytes of the JavaScript string (what [readFileSync] decodes with
      [encoding: 'utf-8']).
    - [Planning]: the functions of planning.js, statement by statement:
      [readCsv], [validateAndCalculateProfit], [processFlights],
      [writeResultsToFile] and [generateFlightReport], the last as the list of
      what a run prints and writes.
    - [Spec], [Generated], [Binary64]: the vocabulary the properties are
      stated in: the validation gates, generated table files, and the
      rounding of binary64 addition.
    - the theorems: the properties of the specification first, then further
      properties of the code. *)

From Stdlib Require Import String Ascii List ZArith Bool Lia Floats DecimalString.
Import ListNotations.
Open Scope string_scope.

(** ** The JavaScript runtime used by planning.js *)
Module JS.

(** *** Strings *)

(** The code points ECMA-262 calls WhiteSpace or LineTerminator
    (StrWhiteSpaceChar), as UTF-8 byte sequences: TAB, LF, VT, FF, CR, SP,
    U+00A0, U+1680, U+2000..U+200A, U+2028, U+2029, U+202F, U+205F, U+3000,
    U+FEFF. *)
Definition whiteSpace : list string :=
  [ String "009" ""; String "010" ""; String "011" ""; String "012" "";
    String "013" ""; String "032" "";
    String "194" (String "160" "");
    String "225" (String "154" (String "128" ""));
    String "226" (String "128" (String "128" ""));
    String "226" (String "128" (String "129" ""));
    String "226" (String "128" (String "130" ""));
    String "226" (String "128" (String "131" ""));
    String "226" (String "128" (String "132" ""));
    String "226" (String "128" (String "133" ""));
    String "226" (String "128" (String "134" ""));
    String "226" (String "128" (String "135" ""));
    String "226" (String "128" (String "136" ""));
    String "226" (String "128" (String "137" ""));
    String "226" (String "128" (String "138" ""));
    String "226" (String "128" (String "168" ""));
    String "226" (String "128" (String "169" ""));
    String "226" (String "128" (String "175" ""));
    String "226" (String "129" (String "159" ""));
    String "227" (String "128" (String "128" ""));
    String "239" (String "187" (String "191" "")) ].

Fixpoint rev_string (s : string) : string :=
  match s with
  | EmptyString => EmptyString
  | String c s' => rev_string s' ++ String c EmptyString
  end.

(** [stripPrefix p s] is the rest of [s] after its prefix [p], if [s] starts
    with [p]. *)
Fixpoint stripPrefix (p s : string) : option string :=
  match p, s with
  | EmptyString, _ => Some s
  | String a p', String b s' => if Ascii.eqb a b then stripPrefix p' s' else None
  | String _ _, EmptyString => None
  end.

Definition startsWith (p s : string) : bool :=
  match stripPrefix p s with Some _ => true | None => false end.

(** The rest of [s] after the first sequence of [ps] that [s] starts with. *)
Fixpoint stripAny (ps : list string) (s : string) : option string :=
  match ps with
  | [] => None
  | p :: ps' =>
      match stripPrefix p s with
      | Some r => Some r
      | None => stripAny ps' s
      end
  end.

Fixpoint stripAll (ps : list string) (fuel : nat) (s : string) : string :=
  match fuel with
  | O => s
  | S fuel' =>
      match stripAny ps s with
      | Some r => stripAll ps fuel' r
      | None => s
      end
  end.

(** String.prototype.trimStart, trimEnd and trim. *)
Definition trimStart (s : string) : string :=
  stripAll whiteSpace (String.length s) s.

Definition trimEnd (s : string) : string :=
  rev_string (stripAll (map rev_string whiteSpace) (String.length s) (rev_string s)).

Definition trim (s : string) : string := trimEnd (trimStart s).

(** String.prototype.includes(searchString). *)
Fixpoint includes (sub s : string) : bool :=
  startsWith sub s ||
  match s with
  | EmptyString => false
  | String _ s' => includes sub s'
  end.

(** The pieces of [s] between the occurrences of the non-empty separator
    [sep], scanning from the left; [skip] counts the bytes of a matched
    separator that are still to be passed over. *)
Fixpoint splitOn (sep : string) (skip : nat) (s : string) : list string :=
  match s with
  | EmptyString => [EmptyString]
  | String c s' =>
      match skip with
      | S k => splitOn sep k s'
      | O =>
          if startsWith sep s
          then EmptyString :: splitOn sep (String.length sep - 1) s'
          else match splitOn sep 0 s' with
               | h :: t => String c h :: t
               | [] => [String c EmptyString]
               end
      end
  end.

Fixpoint units (s : string) : list string :=
  match s with
  | EmptyString => []
  | String c s' => String c EmptyString :: units s'
  end.

(** String.prototype.split(separator) for a string separator.  With the empty
    separator JavaScript yields the UTF-16 code units of the string; [units]
    yields its bytes, the same thing on ASCII text. *)
Definition split (sep s : string) : list string :=
  match sep with
  | EmptyString => units s
  | String _ _ => splitOn sep 0 s
  end.

Fixpoint dropBytes (n : nat) (s : string) : string :=
  match n, s with
  | O, _ => s
  | S n', String _ s' => dropBytes n' s'
  | S _, EmptyString => EmptyString
  end.

(** String.prototype.replace(pattern, replacement) for a string pattern: the
    first occurrence only.  (A replacement containing `$` patterns is not
    interpreted; planning.js passes the empty string.) *)
Fixpoint replace (pat rep s : string) : string :=
  match stripPrefix pat s with
  | Some r => rep ++ r
  | None =>
      match s with
      | EmptyString => EmptyString
      | String c s' => String c (replace pat rep s')
      end
  end.

(** Array.prototype.join(separator) on an array of strings. *)
Definition join (sep : string) (xs : list string) : string := String.concat sep xs.

(** Array.prototype.find: the first element satisfying the predicate, or
    undefined ([None]). *)
Definition find {A : Type} (p : A -> bool) (xs : list A) : option A := List.find p xs.

(** Strict equality [===] between two values that are strings or undefined. *)
Definition strictEq (a b : option string) : bool :=
  match a, b with
  | Some x, Some y => String.eqb x y
  | None, None => true
  | _, _ => false
  end.

(** ToString of a value that is a string or undefined, as a template literal
    or parseInt / parseFloat applies it. *)
Definition toStr (v : option string) : string :=
  match v with
  | Some s => s
  | None => "undefined"
  end.

(** *** Numbers

    A Number is an IEEE-754 binary64 value.  [x > y], [x + y], [x - y],
    [x * y] and [x / y] of JavaScript are [gt], [PrimFloat.add],
    [PrimFloat.sub], [PrimFloat.mul] and [PrimFloat.div]. *)
Definition number : Set := float.

Local Open Scope Z_scope.

(** [x > y]: false as soon as an operand is NaN. *)
Definition gt (x y : number) : bool := PrimFloat.ltb y x.

(** The Number nearest to [(-1)^neg * m * 10^e] for a natural [m]: round to
    nearest, ties to even; a zero keeps its sign. *)
Definition ofDecimal (neg : bool) (m e : Z) : number :=
  match m with
  | Zpos p =>
      SF2Prim (SFdiv prec emax
                 (S754_finite neg (p * Z.to_pos (10 ^ Z.max e 0)) 0)
                 (S754_finite false (Z.to_pos (10 ^ Z.max (- e) 0)) 0))
  | _ => SF2Prim (S754_zero neg)
  end.

Definition digitValue (radix : Z) (c : ascii) : option Z :=
  let n := Z.of_N (N_of_ascii c) in
  let v := if (48 <=? n) && (n <=? 57) then n - 48
           else if (97 <=? n) && (n <=? 122) then n - 87
           else if (65 <=? n) && (n <=? 90) then n - 55
           else radix in
  if v <? radix then Some v else None.

(** The longest prefix of [s] made of digits of the radix, read onto the
    digits already in [acc]: its value, the number of digits, the rest. *)
Fixpoint digits (radix : Z) (s : string) (acc : Z) (count : Z) : Z * Z * string :=
  match s with
  | EmptyString => (acc, count, s)
  | String c s' =>
      match digitValue radix c with
      | Some v => digits radix s' (acc * radix + v) (count + 1)
      | None => (acc, count, s)
      end
  end.

(** A leading sign: whether it is [-], and the rest. *)
Definition signOf (s : string) : bool * string :=
  match s with
  | String "-" s' => (true, s')
  | String "+" s' => (false, s')
  | _ => (false, s)
  end.

(** An ExponentPart at the start of [s], if there is a complete one. *)
Definition exponentPart (s : string) : Z :=
  match s with
  | String c s' =>
      if Ascii.eqb c "e" || Ascii.eqb c "E" then
        let (neg, r) := signOf s' in
        let '(v, n, _) := digits 10 r 0 0 in
        if 0 <? n then (if neg then - v else v) else 0
      else 0
  | EmptyString => 0
  end.

(** parseFloat(string): the value of the longest prefix of the trimmed text
    that is a StrDecimalLiteral, NaN when there is none. *)
Definition parseFloat (v : option string) : number :=
  let (neg, r) := signOf (trimStart (toStr v)) in
  if startsWith "Infinity" r then (if neg then neg_infinity else infinity)
  else
    let '(i, ni, r1) := digits 10 r 0 0 in
    let '(m, nf, r2) :=
      match r1 with
      | String "." f => digits 10 f i 0
      | _ => (i, 0, r1)
      end in
    if (ni =? 0) && (nf =? 0) then nan
    else ofDecimal neg m (exponentPart r2 - nf).

(** parseInt(string) with no radix argument: radix 16 after a `0x` prefix,
    10 otherwise. *)
Definition parseInt (v : option string) : number :=
  let (neg, r) := signOf (trimStart (toStr v)) in
  let (radix, r') :=
    match r with
    | String "0" (String "x" h) => (16, h)
    | String "0" (String "X" h) => (16, h)
    | _ => (10, r)
    end in
  let '(m, n, _) := digits radix r' 0 0 in
  if n =? 0 then nan else ofDecimal neg m 0.

(** The decimal digits of a natural number. *)
Definition decimal (n : Z) : string := NilZero.string_of_uint (N.to_uint (Z.to_N n)).

Fixpoint zeros (n : nat) : string :=
  match n with
  | O => EmptyString
  | S n' => String "0" (zeros n')
  end.

Section Shortest.
(** The positive rational [P / Q]. *)
Variables P Q : Z.

(** The integer [n] with [10^(n-1) <= P/Q < 10^n]. *)
Fixpoint magnitudeUp (fuel : nat) (j : Z) : Z :=
  match fuel with
  | O => j
  | S fuel' => if P <? Q * 10 ^ j then j else magnitudeUp fuel' (j + 1)
  end.

Fixpoint magnitudeDown (fuel : nat) (i : Z) : Z :=
  match fuel with
  | O => - i
  | S fuel' => if Q <=? P * 10 ^ (i + 1) then - i else magnitudeDown fuel' (i + 1)
  end.

Definition magnitude : Z :=
  if Q <=? P then magnitudeUp 400 1 else magnitudeDown 400 0.

(** Does the decimal [s * 10^(n-k)] read back as [x]? *)
Definition readsBack (x : spec_float) (s n k : Z) : bool :=
  SFeqb (Prim2SF (ofDecimal false s (n - k))) x.

(** The [(s, k, n)] of Number::toString: the least [k], from 1 up, with a
    [k]-digit [s] such that [s * 10^(n-k)] reads back as [x]; of two such
    [s] the one nearer to [x], the even one on a tie. *)
Fixpoint shortest (x : spec_float) (n0 : Z) (fuel : nat) (k : Z) : Z * Z * Z :=
  let num := P * 10 ^ Z.max (k - n0) 0 in
  let den := Q * 10 ^ Z.max (n0 - k) 0 in
  let lo := num / den in
  let hi := lo + 1 in
  let okLo := readsBack x lo n0 k in
  let okHi := if hi =? 10 ^ k then false else readsBack x hi n0 k in
  let loNearer :=
    match 2 * (num - lo * den) ?= den with
    | Lt => true
    | Eq => Z.even lo
    | Gt => false
    end in
  match fuel with
  | O => (lo, k, n0)
  | S fuel' =>
      if okLo && (negb okHi || loNearer) then (lo, k, n0)
      else if okHi then (hi, k, n0)
      else if (k =? 1) && readsBack x 1 (n0 + 1) 1 then (1, 1, n0 + 1)
      else shortest x n0 fuel' (k + 1)
  end.
End Shortest.

(** Steps 6 to 10 of Number::toString: the text for the digits [s] (there are
    [k] of them) and the decimal exponent [n]. *)
Definition formatDigits (s k n : Z) : string :=
  let d := decimal s in
  if (k <=? n) && (n <=? 21) then d ++ zeros (Z.to_nat (n - k))
  else if (0 <? n) && (n <=? 21) then
    substring 0 (Z.to_nat n) d ++ "." ++ substring (Z.to_nat n) (Z.to_nat (k - n)) d
  else if (-6 <? n) && (n <=? 0) then "0." ++ zeros (Z.to_nat (- n)) ++ d
  else
    let e := n - 1 in
    let tail := "e" ++ (if e <? 0 then "-" else "+") ++ decimal (Z.abs e) in
    if k =? 1 then d ++ tail
    else substring 0 1 d ++ "." ++ substring 1 (Z.to_nat (k - 1)) d ++ tail.

(** Number::toString(x) in radix 10, as a template literal applies it. *)
Definition numberToString (x : number) : string :=
  match Prim2SF x with
  | S754_nan => "NaN"
  | S754_zero _ => "0"
  | S754_infinity neg => (if neg then "-" else "") ++ "Infinity"
  | S754_finite neg m e =>
      let P := Zpos m * 2 ^ Z.max e 0 in
      let Q := 2 ^ Z.max (- e) 0 in
      let '(s, k, n) := shortest P Q (S754_finite false m e) (magnitude P Q) 17 1 in
      (if neg then "-" else "") ++ formatDigits s k n
  end.

(** Number.prototype.toFixed(fractionDigits): [n] is the integer nearest to
    [x * 10^f], the larger one of two; the text of a value that is not
    finite or is at least 10^21 is that of Number::toString. *)
Definition toFixed (f : nat) (x : number) : string :=
  match Prim2SF x with
  | S754_zero _ => "0" ++ (match f with O => "" | _ => "." ++ zeros f end)
  | S754_finite neg m e =>
      let sign := if neg then "-" else "" in
      let P := Zpos m * 2 ^ Z.max e 0 in
      let Q := 2 ^ Z.max (- e) 0 in
      if 10 ^ 21 * Q <=? P then sign ++ numberToString (abs x)
      else
        let n := (2 * P * 10 ^ Z.of_nat f + Q) / (2 * Q) in
        let d := decimal n in
        let k := String.length d in
        let d' := if Nat.leb k f then zeros (f + 1 - k)%nat ++ d else d in
        let k' := String.length d' in
        sign ++
        match f with
        | O => d'
        | _ => substring 0 (k' - f)%nat d' ++ "." ++ substring (k' - f)%nat f d'
        end
  | _ => numberToString x
  end.

End JS.

(** ** planning.js *)
Module Planning.
Import JS.

(** A row of a table is the array of strings [readCsv] pushes; a table is an
    array of rows.  A flight is a row of the flights table.  [r !! i] is the
    JavaScript [r[i]]: [None] is undefined. *)
Definition row : Set := list string.
Definition table : Set := list row.

Notation "r !! i" := (nth_error r i) (at level 20, no associativity).

(** *** readCsv (lines 4-26) *)

(** Lines 11-20, the body of the loop on [rows[i]]: the columns pushed on
    [data], if the line is not empty once its comment is cut and it is
    trimmed. *)
Definition readRow (delimiter : string) (line : string) : option row :=
  let row := trim line in
  let row := if includes "#" row then trim (hd "" (split "#" row)) else row in
  match row with
  | EmptyString => None
  | String _ _ => Some (split delimiter row)
  end.

(** Lines 7-22 on the content of the file: the loop starts at index 1. *)
Definition parseCsv (fileContent : string) (delimiter : string) : table :=
  let rows := split (String "010" "") fileContent in
  fold_left
    (fun data line =>
       match readRow delimiter line with
       | Some columns => (data ++ [columns])%list
       | None => data
       end)
    (tl rows) [].

(** [readFileSync] either returns the content of the file or throws an error
    with a message. *)
Definition fileSystem : Set := string -> string + string.

(** readCsv(filename, delimiter = ','): the table, or the message of the
    error thrown at line 24. *)
Definition readCsv (fs : fileSystem) (filename : string) (delimiter : option string)
  : table + string :=
  let delimiter := match delimiter with Some d => d | None => "," end in
  match fs filename with
  | inl fileContent => inl (parseCsv fileContent delimiter)
  | inr message => inr ("Error reading file: " ++ message)
  end.

(** *** validateAndCalculateProfit (lines 29-89) *)

(** The object returned at lines 83-88. *)
Record result : Set := {
  flightDetails : row;
  income : string;
  cost : string;
  profit : string
}.

(** The errors thrown, one constructor per [throw] of the function, with the
    values its message interpolates; [NoCostFigure] is the TypeError of line
    42, where [replace] is called on an undefined [aircraftData[1]]. *)
Inductive failure : Set :=
| InvalidAirportCode (overseasAirportCode : option string)
| InvalidAircraftType (aircraftType : option string)
| NoCostFigure
| InsufficientRange (aircraftType overseasAirportCode : option string)
| TooManyTotalSeats (totalSeatsBooked totalSeats : number)
| TooManyEconomySeats (econSeats : option string) (economySeatsAvailable : number)
| TooManyBusinessSeats (busSeats : option string) (businessSeatsAvailable : number)
| TooManyFirstClassSeats (firstSeats : option string) (firstClassSeatsAvailable : number).

(** [error.message]. *)
Definition message (e : failure) : string :=
  match e with
  | InvalidAirportCode c => "Invalid airport code: " ++ toStr c
  | InvalidAircraftType t => "Invalid aircraft type: " ++ toStr t
  | NoCostFigure => "Cannot read properties of undefined (reading 'replace')"
  | InsufficientRange t c =>
      toStr t ++ " doesn't have the range to fly to " ++ toStr c
  | TooManyTotalSeats b s =>
      "Too many total seats booked (" ++ numberToString b ++ " > " ++ numberToString s ++ ")"
  | TooManyEconomySeats b s =>
      "Too many economy seats booked (" ++ toStr b ++ " > " ++ numberToString s ++ ")"
  | TooManyBusinessSeats b s =>
      "Too many business seats booked (" ++ toStr b ++ " > " ++ numberToString s ++ ")"
  | TooManyFirstClassSeats b s =>
      "Too many first-class seats booked (" ++ toStr b ++ " > " ++ numberToString s ++ ")"
  end.

Local Open Scope float_scope.

Definition validateAndCalculateProfit (flight : row) (airports aeroplanes : table)
  : result + failure :=
  let ukAirportCode := flight !! 0 in
  let overseasAirportCode := flight !! 1 in
  let aircraftType := flight !! 2 in
  let econSeats := flight !! 3 in
  let busSeats := flight !! 4 in
  let firstSeats := flight !! 5 in
  let econPrice := flight !! 6 in
  let busPrice := flight !! 7 in
  let firstPrice := flight !! 8 in
  match find (fun row => strictEq (row !! 0) overseasAirportCode) airports with
  | None => inr (InvalidAirportCode overseasAirportCode)
  | Some airportData =>
  let distance :=
    if strictEq ukAirportCode (Some "MAN")
    then parseFloat (airportData !! 2)
    else parseFloat (airportData !! 3) in
  match find (fun row => strictEq (row !! 0) aircraftType) aeroplanes with
  | None => inr (InvalidAircraftType aircraftType)
  | Some aircraftData =>
  match aircraftData !! 1 with
  | None => inr NoCostFigure
  | Some costFigure =>
  let runningCost := parseFloat (Some (replace "£" "" costFigure)) / 100 in
  let maxRange := parseFloat (aircraftData !! 2) in
  let economySeatsAvailable := parseInt (aircraftData !! 3) in
  let businessSeatsAvailable := parseInt (aircraftData !! 4) in
  let firstClassSeatsAvailable := parseInt (aircraftData !! 5) in
  let totalSeats :=
    economySeatsAvailable + businessSeatsAvailable + firstClassSeatsAvailable in
  if gt distance maxRange then
    inr (InsufficientRange aircraftType overseasAirportCode)
  else
  let totalSeatsBooked := parseInt econSeats + parseInt busSeats + parseInt firstSeats in
  if gt totalSeatsBooked totalSeats then
    inr (TooManyTotalSeats totalSeatsBooked totalSeats)
  else if gt (parseInt econSeats) economySeatsAvailable then
    inr (TooManyEconomySeats econSeats economySeatsAvailable)
  else if gt (parseInt busSeats) businessSeatsAvailable then
    inr (TooManyBusinessSeats busSeats businessSeatsAvailable)
  else if gt (parseInt firstSeats) firstClassSeatsAvailable then
    inr (TooManyFirstClassSeats firstSeats firstClassSeatsAvailable)
  else
  let totalIncome :=
    parseInt econSeats * parseFloat econPrice
    + parseInt busSeats * parseFloat busPrice
    + parseInt firstSeats * parseFloat firstPrice in
  let costPerSeat := runningCost * distance in
  let totalCost := costPerSeat * totalSeatsBooked in
  let profit := totalIncome - totalCost in
  inl {| flightDetails := flight;
         income := toFixed 2 totalIncome;
         cost := toFixed 2 totalCost;
         profit := toFixed 2 profit |}
  end end end.

(** *** processFlights (lines 92-106) *)

(** The object returned at line 105. *)
Record report : Set := {
  results : list result;
  errorMessages : list string
}.

(** Lines 97-102, the callback of [forEach]: what one flight pushes on the two
    arrays. *)
Definition processFlight (airports aeroplanes : table) (acc : report) (flight : row)
  : report :=
  match validateAndCalculateProfit flight airports aeroplanes with
  | inl result =>
      {| results := (results acc ++ [result])%list;
         errorMessages := errorMessages acc |}
  | inr error =>
      {| results := results acc;
         errorMessages :=
           app (errorMessages acc)
               ["Flight Data: " ++ join ", " flight ++ " - Error: " ++ message error] |}
  end.

Definition processFlights (flights : list row) (airports aeroplanes : table) : report :=
  fold_left (processFlight airports aeroplanes) flights
            {| results := []; errorMessages := [] |}.

(** *** writeResultsToFile (lines 109-115): the text written to the file. *)
Definition reportLine (r : result) : string :=
  "Flight: " ++ join ", " (flightDetails r) ++ " | Income: £" ++ income r
  ++ " | Cost: £" ++ cost r ++ " | Profit: £" ++ profit r.

Definition writeResultsToFile (results : list result) (filename : string)
  : string * string :=
  (filename, join (String "010" "") (map reportLine results)).

(** *** generateFlightReport (lines 118-161)

    What a run does to the outside, in order: lines printed with
    [console.log] and [console.error], and the file written. *)
Inductive event : Set :=
| ConsoleLog (text : string)
| ConsoleError (text : string)
| FileWritten (filename content : string).

(** [writeFileSync] either writes the file or throws an error with a
    message. *)
Definition fileWriter : Set := string -> string -> option string.

(** Line 133. *)
Definition validFlightLine (r : result) : string :=
  "Valid Flight: " ++ join ", " (flightDetails r) ++ " | Income: £" ++ income r
  ++ " | Cost: £" ++ cost r ++ " | Profit: £" ++ profit r.

(** Lines 140-143 and 151-154: the heading and the messages, if there are
    any. *)
Definition reportErrors (heading : string) (errorMessages : list string) : list event :=
  match errorMessages with
  | [] => []
  | _ :: _ => ConsoleLog heading :: map ConsoleError errorMessages
  end.

(** The four tables are read first; an error thrown by [readCsv] or by
    [writeFileSync] ends the run at the [catch] of line 158, which prints its
    message.  The tests of lines 128 and 147 are on arrays, which are never
    falsy. *)
Definition generateFlightReport (fs : fileSystem) (writeFileSync : fileWriter)
  : list event :=
  match readCsv fs "airports.csv" None with
  | inr message => [ConsoleError message]
  | inl airportsData =>
  match readCsv fs "aeroplanes.csv" None with
  | inr message => [ConsoleError message]
  | inl aeroplanesData =>
  match readCsv fs "valid_flight_data.csv" None with
  | inr message => [ConsoleError message]
  | inl validFlightData =>
  match readCsv fs "invalid_flight_data.csv" None with
  | inr message => [ConsoleError message]
  | inl invalidFlightData =>
  let valid := processFlights validFlightData airportsData aeroplanesData in
  let shown := map (fun r => ConsoleLog (validFlightLine r)) (results valid) in
  let (filename, output) :=
    writeResultsToFile (results valid) "flight_profitability_report.txt" in
  match writeFileSync filename output with
  | Some message => (shown ++ [ConsoleError message])%list
  | None =>
      let invalid := processFlights invalidFlightData airportsData aeroplanesData in
      (shown ++ [FileWritten filename output]
       ++ reportErrors "Errors encountered in valid flight processing:"
                       (errorMessages valid)
       ++ reportErrors "Errors encountered in invalid flight processing:"
                       (errorMessages invalid))%list
  end
  end end end end.

(** The files a run writes. *)
Fixpoint filesWritten (events : list event) : list (string * string) :=
  match events with
  | [] => []
  | FileWritten filename content :: events' => (filename, content) :: filesWritten events'
  | _ :: events' => filesWritten events'
  end.

End Planning.

(** ** The vocabulary of the specification

    The validation gates of the evaluator, each as a test of its own on the
    request and the two tables, and the quantities the specification names
    (selected distance, booked seats, capacities, income, cost). *)
Module Spec.
Import JS Planning.
Local Open Scope float_scope.

Inductive cabin : Set := Economy | Business | FirstClass.

Inductive gate : Set :=
| UnknownDestination
| UnknownAircraft
| InsufficientRange
| TotalOverbooking
| ClassOverbooking (c : cabin).

(** The order in which the specification lists the checks. *)
Definition gateOrder : list gate :=
  [ UnknownDestination; UnknownAircraft; InsufficientRange; TotalOverbooking;
    ClassOverbooking Economy; ClassOverbooking Business; ClassOverbooking FirstClass ].

(** The first row of the table keyed by the request's destination code, and
    by its aircraft type. *)
Definition airportOf (flight : row) (airports : table) : option row :=
  find (fun row => strictEq (row !! 0) (flight !! 1)) airports.

Definition aircraftOf (flight : row) (aeroplanes : table) : option row :=
  find (fun row => strictEq (row !! 0) (flight !! 2)) aeroplanes.

(** The column of an airport row that holds the distance from the origin:
    index 2 for the primary origin, index 3 for any other. *)
Definition distanceColumn (ukAirportCode : option string) : nat :=
  if strictEq ukAirportCode (Some "MAN") then 2%nat else 3%nat.

Definition selectedDistance (flight airportData : row) : number :=
  parseFloat (airportData !! distanceColumn (flight !! 0)).

Definition maxRange (aircraftData : row) : number := parseFloat (aircraftData !! 2).

(** Booked seats of a class are columns 3, 4, 5 of the request; the capacity
    of the class is the column of the same index in the aircraft row. *)
Definition column (c : cabin) : nat :=
  match c with Economy => 3%nat | Business => 4%nat | FirstClass => 5%nat end.

Definition bookedText (c : cabin) (flight : row) : option string := flight !! column c.
Definition booked (c : cabin) (flight : row) : number := parseInt (bookedText c flight).
Definition capacity (c : cabin) (aircraftData : row) : number :=
  parseInt (aircraftData !! column c).
Definition price (c : cabin) (flight : row) : number :=
  parseFloat (flight !! (column c + 3)).

Definition totalBooked (flight : row) : number :=
  booked Economy flight + booked Business flight + booked FirstClass flight.

Definition totalCapacity (aircraftData : row) : number :=
  capacity Economy aircraftData + capacity Business aircraftData
  + capacity FirstClass aircraftData.

(** Income, running cost per seat and unit of distance, and cost, before any
    formatting. *)
Definition totalIncome (flight : row) : number :=
  booked Economy flight * price Economy flight
  + booked Business flight * price Business flight
  + booked FirstClass flight * price FirstClass flight.

Definition runningCost (costFigure : string) : number :=
  parseFloat (Some (replace "£" "" costFigure)) / 100.

Definition totalCost (flight airportData : row) (costFigure : string) : number :=
  runningCost costFigure * selectedDistance flight airportData * totalBooked flight.

(** Does the request fail the gate?  A gate that needs a row which the
    lookup does not find has nothing to compare and does not fail. *)
Definition fails (g : gate) (flight : row) (airports aeroplanes : table) : bool :=
  match g with
  | UnknownDestination =>
      match airportOf flight airports with None => true | Some _ => false end
  | UnknownAircraft =>
      match aircraftOf flight aeroplanes with None => true | Some _ => false end
  | InsufficientRange =>
      match airportOf flight airports, aircraftOf flight aeroplanes with
      | Some airportData, Some aircraftData =>
          gt (selectedDistance flight airportData) (maxRange aircraftData)
      | _, _ => false
      end
  | TotalOverbooking =>
      match aircraftOf flight aeroplanes with
      | Some aircraftData => gt (totalBooked flight) (totalCapacity aircraftData)
      | None => false
      end
  | ClassOverbooking c =>
      match aircraftOf flight aeroplanes with
      | Some aircraftData => gt (booked c flight) (capacity c aircraftData)
      | None => false
      end
  end.

Definition firstFailing (flight : row) (airports aeroplanes : table) : option gate :=
  List.find (fun g => fails g flight airports aeroplanes) gateOrder.

(** The error a gate reports. *)
Definition overbooked (c : cabin) : option string -> number -> failure :=
  match c with
  | Economy => TooManyEconomySeats
  | Business => TooManyBusinessSeats
  | FirstClass => TooManyFirstClassSeats
  end.

Definition reported (g : gate) (flight : row) (aeroplanes : table) : failure :=
  let aircraftData :=
    match aircraftOf flight aeroplanes with Some r => r | None => [] end in
  match g with
  | UnknownDestination => InvalidAirportCode (flight !! 1)
  | UnknownAircraft => InvalidAircraftType (flight !! 2)
  | InsufficientRange => Planning.InsufficientRange (flight !! 2) (flight !! 1)
  | TotalOverbooking => TooManyTotalSeats (totalBooked flight) (totalCapacity aircraftData)
  | ClassOverbooking c => overbooked c (bookedText c flight) (capacity c aircraftData)
  end.

(** What the evaluator does once the airport row is found, as a function of
    the distance alone (lines 38-88). *)
Definition evaluateAtDistance (distance : number) (flight : row) (aeroplanes : table)
  : result + failure :=
  match aircraftOf flight aeroplanes with
  | None => inr (InvalidAircraftType (flight !! 2))
  | Some aircraftData =>
      match aircraftData !! 1 with
      | None => inr NoCostFigure
      | Some costFigure =>
          if gt distance (maxRange aircraftData) then
            inr (Planning.InsufficientRange (flight !! 2) (flight !! 1))
          else if gt (totalBooked flight) (totalCapacity aircraftData) then
            inr (TooManyTotalSeats (totalBooked flight) (totalCapacity aircraftData))
          else if gt (booked Economy flight) (capacity Economy aircraftData) then
            inr (TooManyEconomySeats (flight !! 3) (capacity Economy aircraftData))
          else if gt (booked Business flight) (capacity Business aircraftData) then
            inr (TooManyBusinessSeats (flight !! 4) (capacity Business aircraftData))
          else if gt (booked FirstClass flight) (capacity FirstClass aircraftData) then
            inr (TooManyFirstClassSeats (flight !! 5) (capacity FirstClass aircraftData))
          else
            let income := totalIncome flight in
            let cost := runningCost costFigure * distance * totalBooked flight in
            inl {| flightDetails := flight;
                   income := toFixed 2 income;
                   cost := toFixed 2 cost;
                   profit := toFixed 2 (income - cost) |}
      end
  end.

(** The figures of an outcome: a result without the request it echoes. *)
Definition figures (x : result + failure) : (string * string * string) + failure :=
  match x with
  | inl r => inl (income r, cost r, profit r)
  | inr e => inr e
  end.

(** The request with the booked seats of one class replaced. *)
Definition withBooked (c : cabin) (seats : string) (flight : row) : row :=
  (firstn (column c) flight ++ seats :: skipn (S (column c)) flight)%list.

(** The successes and the failure messages of a batch, each read off the
    requests one by one. *)
Definition successOf (airports aeroplanes : table) (flight : row) : option result :=
  match validateAndCalculateProfit flight airports aeroplanes with
  | inl r => Some r
  | inr _ => None
  end.

Definition failureOf (airports aeroplanes : table) (flight : row) : option string :=
  match validateAndCalculateProfit flight airports aeroplanes with
  | inl _ => None
  | inr e => Some ("Flight Data: " ++ join ", " flight ++ " - Error: " ++ message e)%string
  end.

Fixpoint choose {A B : Type} (f : A -> option B) (xs : list A) : list B :=
  match xs with
  | [] => []
  | x :: xs' =>
      match f x with
      | Some y => y :: choose f xs'
      | None => choose f xs'
      end
  end.

End Spec.


(** ** The tables and requests of the repository's tests *)
Module TestData.
Import Planning.

Definition airportsData : table :=
  [ ["JFK"; "John F Kennedy International"; "5376"; "5583"];
    ["ORY"; "Paris-Orly"; "610"; "325"] ].

Definition aeroplanesData : table :=
  [ ["Medium narrow body"; "£8"; "2650"; "160"; "12"; "0"];
    ["Large narrow body"; "£7"; "5600"; "180"; "20"; "4"] ].

Definition validFlightData : list row :=
  [ ["MAN"; "JFK"; "Large narrow body"; "150"; "12"; "2"; "399"; "999"; "1899"];
    ["LGW"; "ORY"; "Medium narrow body"; "120"; "8"; "0"; "150"; "450"; "0"] ].

Definition invalidFlightData : list row :=
  [ ["MAN"; "JFK"; "Medium narrow body"; "150"; "12"; "2"; "399"; "999"; "1899"];
    ["LGW"; "ORY"; "Large narrow body"; "200"; "25"; "5"; "450"; "1200"; "2500"];
    ["LGW"; "INVALID"; "Medium narrow body"; "120"; "8"; "0"; "150"; "450"; "0"] ].

End TestData.

(** ** Generated table files

    The files of the round-trip property of [readCsv]: a header line, then
    lines that are either a data row (its fields joined by the delimiter) or
    noise (blank text), each with an optional `#` comment appended. *)
Module Generated.
Import JS Planning.

(** Does the byte [c] occur in [s]? *)
Fixpoint occurs (c : ascii) (s : string) : bool :=
  match s with
  | EmptyString => false
  | String a s' => Ascii.eqb a c || occurs c s'
  end.

Inductive fileLine : Set :=
| DataRow (fields : list string) (comment : option string)
| NoiseLine (blank : string) (comment : option string).

Definition commentSuffix (comment : option string) : string :=
  match comment with
  | Some c => String "#" c
  | None => EmptyString
  end.

Definition renderLine (delimiter : ascii) (l : fileLine) : string :=
  match l with
  | DataRow fields comment =>
      join (String delimiter "") fields ++ commentSuffix comment
  | NoiseLine blank comment => blank ++ commentSuffix comment
  end.

Definition renderFile (delimiter : ascii) (header : string) (lines : list fileLine)
  : string :=
  join (String "010" "") (header :: map (renderLine delimiter) lines).

(** A field holds no delimiter, no `#` and no line feed. *)
Definition plainField (delimiter : ascii) (s : string) : bool :=
  negb (occurs delimiter s) && negb (occurs "#" s) && negb (occurs "010" s).

Definition commentOk (comment : option string) : bool :=
  match comment with
  | Some c => negb (occurs "010" c)
  | None => true
  end.

(** A data row has at least one field and is not blank; a noise line is. *)
Definition wellFormed (delimiter : ascii) (l : fileLine) : bool :=
  match l with
  | DataRow fields comment =>
      match fields with [] => false | _ :: _ => true end
      && forallb (plainField delimiter) fields
      && negb (String.eqb (trim (join (String delimiter "") fields)) "")
      && commentOk comment
  | NoiseLine blank comment =>
      String.eqb (trim blank) ""
      && negb (occurs "#" blank) && negb (occurs "010" blank)
      && commentOk comment
  end.

(** The delimiter is no byte of a white space sequence, and not `#`. *)
Definition delimiterOk (delimiter : ascii) : bool :=
  forallb (fun p => negb (occurs delimiter p)) whiteSpace
  && negb (Ascii.eqb delimiter "#").

(** No sequence of [ps] holds the byte [h]; no sequence of [ps] is empty. *)
Definition without (h : ascii) (ps : list string) : Prop :=
  Forall (fun p => occurs h p = false) ps.

Definition nonEmpty (ps : list string) : Prop :=
  Forall (fun p => p <> EmptyString) ps.

(** The field lists of the data rows, in order. *)
Fixpoint dataRows (lines : list fileLine) : list (list string) :=
  match lines with
  | [] => []
  | DataRow fields _ :: lines' => fields :: dataRows lines'
  | NoiseLine _ _ :: lines' => dataRows lines'
  end.

(** The lines with their comments removed. *)
Definition withoutComment (l : fileLine) : fileLine :=
  match l with
  | DataRow fields _ => DataRow fields None
  | NoiseLine blank _ => NoiseLine blank None
  end.

End Generated.

(** ** Binary64 rounding

    The addition of two finite Numbers is the rounding of their exact sum.
    Here that rounding is written as a function of the sum in units of
    2^-1074, the least positive Number, so that it can be compared with the
    [SFadd] of the specification of floats. *)
Module Binary64.
Local Open Scope Z_scope.

(** Round to nearest, ties to even, of [m / 2^n]. *)
Definition rne (m n : Z) : Z :=
  let q := m / 2 ^ n in
  match 2 * (m mod 2 ^ n) ?= 2 ^ n with
  | Lt => q
  | Eq => if Z.even q then q else q + 1
  | Gt => q + 1
  end.

(** The flags of a shift record after [n] shifts of [m0]. *)
Definition flags (m0 n : Z) (mrs : shr_record) : Prop :=
  shr_m mrs = m0 / 2 ^ n
  /\ shr_r mrs = (2 ^ n <=? 2 * (m0 mod 2 ^ n))
  /\ shr_s mrs = negb ((m0 mod 2 ^ n =? 0) || (2 * (m0 mod 2 ^ n) =? 2 ^ n)).

(** The shift that leaves 53 bits of [N], a positive integer in units of
    2^-1074. *)
Definition shift (N : Z) : Z := Z.max (Z.log2 N + 1 - 53) 0.

Definition finish (s : bool) (m e : Z) : spec_float :=
  match m with
  | Z0 => S754_zero s
  | Zpos p => if e <=? 971 then S754_finite s p e else S754_infinity s
  | Zneg _ => S754_nan
  end.

Definition round (s : bool) (N : Z) : spec_float :=
  let k := shift N in
  let m := rne N k in
  if m =? 2 ^ 53 then finish s (2 ^ 52) (k + 1 - 1074) else finish s m (k - 1074).

(** The value of a number in units of 2^-1074; an infinity lies beyond every
    finite value. *)
Definition xval (f : spec_float) : Z :=
  match f with
  | S754_zero _ => 0
  | S754_infinity s => if s then - 2 ^ 2100 else 2 ^ 2100
  | S754_nan => 0
  | S754_finite s m e =>
      if s then - (Zpos m * 2 ^ (e + 1074)) else Zpos m * 2 ^ (e + 1074)
  end.

Definition canonical (f : spec_float) : Prop :=
  match f with
  | S754_finite _ m e =>
      -1074 <= e <= 971 /\ Zpos m < 2 ^ 53 /\ (e = -1074 \/ 2 ^ 52 <= Zpos m)
  | _ => True
  end.

Definition isNan (f : spec_float) : bool :=
  match f with
  | S754_nan => true
  | _ => false
  end.

Definition out (N : Z) : Z := rne N (shift N) * 2 ^ shift N.

Definition cap (v : Z) : Z := if v <? 2 ^ 2098 then v else 2 ^ 2100.

(** The number nearest to [N] units of 2^-1074. *)
Definition nearest (N : Z) : spec_float := binary_normalize prec emax N (-1074) false.

Definition rounded (N : Z) : Z :=
  match N with
  | Z0 => 0
  | Zpos _ => cap (out N)
  | Zneg p => - cap (out (Zpos p))
  end.

End Binary64.

(** ** Properties *)

Import JS Planning Spec Generated.

(** *** Comparisons with NaN, and short rows *)

Lemma gt_nan_r (x : number) : gt x nan = false.
Proof.
  unfold gt. rewrite ltb_spec.
  change (Prim2SF nan) with S754_nan. reflexivity.
Qed.

Lemma gt_nan_l (x : number) : gt nan x = false.
Proof.
  unfold gt. rewrite ltb_spec.
  change (Prim2SF nan) with S754_nan.
  unfold SFltb, SFcompare. now destruct (Prim2SF x).
Qed.

Lemma parseInt_undefined : parseInt None = nan.
Proof. reflexivity. Qed.

Lemma parseFloat_undefined : parseFloat None = nan.
Proof. reflexivity. Qed.

(** A row with no element at index [i] has none further on. *)
Lemma undefined_from {A : Type} (r : list A) (i j : nat) :
  r !! i = None -> (i <= j)%nat -> r !! j = None.
Proof.
  intros Hi Hij. apply nth_error_None. apply nth_error_None in Hi. lia.
Qed.

(** The aircraft row of a request whose class capacity is exceeded has a cost
    figure: the capacity is a number, so the row reaches the column. *)
Lemma capacity_exceeded_cost_figure (c : cabin) (x : number) (aircraftData : row) :
  gt x (capacity c aircraftData) = true -> aircraftData !! 1 <> None.
Proof.
  intros Hgt Hnone. unfold capacity in Hgt.
  rewrite (undefined_from aircraftData 1 (column c) Hnone) in Hgt
    by (destruct c; simpl; lia).
  rewrite parseInt_undefined, gt_nan_r in Hgt. discriminate.
Qed.

Lemma no_cost_figure_no_capacity (aircraftData : row) :
  aircraftData !! 1 = None ->
  maxRange aircraftData = nan /\ totalCapacity aircraftData = nan
  /\ forall c, capacity c aircraftData = nan.
Proof.
  intros Hnone. unfold maxRange, totalCapacity, capacity.
  assert (H : forall j, (1 <= j)%nat -> aircraftData !! j = None)
    by (intros j Hj; exact (undefined_from aircraftData 1 j Hnone Hj)).
  repeat split.
  - rewrite H by lia. reflexivity.
  - cbn [column]. rewrite !H by lia. reflexivity.
  - intros c. rewrite H by (destruct c; simpl; lia). reflexivity.
Qed.

(** *** The evaluator in the vocabulary of the specification *)

Lemma evaluate_unfold (flight : row) (airports aeroplanes : table) :
  validateAndCalculateProfit flight airports aeroplanes =
  match airportOf flight airports with
  | None => inr (InvalidAirportCode (flight !! 1))
  | Some airportData =>
      evaluateAtDistance (selectedDistance flight airportData) flight aeroplanes
  end.
Proof.
  unfold validateAndCalculateProfit, airportOf, evaluateAtDistance, aircraftOf.
  destruct (find (fun row => strictEq (row !! 0) (flight !! 1)) airports)
    as [airportData|]; [|reflexivity].
  destruct (find (fun row => strictEq (row !! 0) (flight !! 2)) aeroplanes)
    as [aircraftData|]; [|reflexivity].
  unfold selectedDistance, distanceColumn.
  destruct (strictEq (flight !! 0) (Some "MAN")); reflexivity.
Qed.

Lemma find_some_in {A : Type} (p : A -> bool) (xs : list A) (x : A) :
  find p xs = Some x -> In x xs /\ p x = true.
Proof. apply find_some. Qed.

Lemma strictEq_true (a b : option string) : strictEq a b = true -> a = b.
Proof.
  destruct a, b; simpl; try discriminate; [|reflexivity].
  intros H. apply String.eqb_eq in H. now subst.
Qed.

Lemma strictEq_refl (a : option string) : strictEq a a = true.
Proof. destruct a; simpl; [apply String.eqb_refl | reflexivity]. Qed.

(** *** Addition of Numbers is monotone *)
Module Binary64Facts.
Import Binary64.
Local Open Scope Z_scope.

(** *** Shifting right *)

Lemma iter_pos_nat {A : Type} (f : A -> A) (p : positive) (x : A) :
  iter_pos f p x = Nat.iter (Pos.to_nat p) f x.
Proof.
  revert x. induction p as [p IH|p IH|]; intros x; cbn [iter_pos].
  - rewrite !IH, Pos2Nat.inj_xI.
    replace (S (2 * Pos.to_nat p)) with (Pos.to_nat p + (Pos.to_nat p + 1))%nat by lia.
    rewrite !Nat.iter_add. reflexivity.
  - rewrite !IH, Pos2Nat.inj_xO.
    replace (2 * Pos.to_nat p)%nat with (Pos.to_nat p + Pos.to_nat p)%nat by lia.
    rewrite Nat.iter_add. reflexivity.
  - reflexivity.
Qed.

Lemma shr_1_spec (m : Z) (r s : bool) :
  0 <= m ->
  shr_1 {| shr_m := m; shr_r := r; shr_s := s |}
  = {| shr_m := m / 2; shr_r := Z.odd m; shr_s := r || s |}.
Proof.
  intros Hm. rewrite <- Z.div2_div.
  destruct m as [|[p|p|]|p]; try reflexivity; lia.
Qed.

Lemma flags_step (m0 n : Z) (mrs : shr_record) :
  0 <= m0 -> 0 <= n -> flags m0 n mrs -> flags m0 (n + 1) (shr_1 mrs).
Proof.
  intros Hm Hn (Hq & Hr & Hs). destruct mrs as [m r s]. cbn [shr_m shr_r shr_s] in *.
  assert (Hp : 0 < 2 ^ n) by (apply Z.pow_pos_nonneg; lia).
  assert (Hm0 : 0 <= m) by (subst m; apply Z.div_pos; lia).
  rewrite shr_1_spec by exact Hm0. unfold flags. cbn [shr_m shr_r shr_s].
  rewrite Z.pow_add_r, Z.pow_1_r by lia.
  pose proof (Z.div_mod m0 (2 ^ n) ltac:(lia)) as Hdiv.
  pose proof (Z.mod_pos_bound m0 (2 ^ n) Hp) as Hrem.
  pose proof (Z.div_mod m 2 ltac:(lia)) as Hdiv2.
  pose proof (Z.mod_pos_bound m 2 ltac:(lia)) as Hbit.
  rewrite <- Hq in Hdiv.
  assert (Hq' : m0 / (2 ^ n * 2) = m / 2).
  { rewrite Hq, Z.div_div by lia. reflexivity. }
  set (p := 2 ^ n) in *. set (rem := m0 mod p) in *.
  assert (Hrem' : m0 mod (p * 2) = (m mod 2) * p + rem).
  { symmetry. apply Z.mod_unique_pos with (q := m / 2);
      [destruct (Z.eq_dec (m mod 2) 0) as [->| ];
       [lia | replace (m mod 2) with 1 by lia; lia]|].
    rewrite Hdiv at 1. rewrite Hdiv2 at 1. ring. }
  rewrite Hq', Hrem', Zodd_mod.
  assert (Hb : m mod 2 = 0 \/ m mod 2 = 1) by lia.
  repeat split.
  - destruct Hb as [-> | ->]; cbn [Z.eqb];
      destruct (Z.leb_spec (p * 2) (2 * (0 * p + rem)));
      destruct (Z.leb_spec (p * 2) (2 * (1 * p + rem))); try reflexivity; lia.
  - subst r s.
    destruct Hb as [-> | ->];
      destruct (Z.leb_spec p (2 * rem)), (Z.eqb_spec rem 0), (Z.eqb_spec (2 * rem) p);
      cbn [orb negb];
      destruct (Z.eqb_spec (0 * p + rem) 0), (Z.eqb_spec (2 * (0 * p + rem)) (p * 2));
      destruct (Z.eqb_spec (1 * p + rem) 0), (Z.eqb_spec (2 * (1 * p + rem)) (p * 2));
      cbn [orb negb]; try reflexivity; lia.
Qed.

Lemma flags_iter (m0 : Z) (n : nat) :
  0 <= m0 ->
  flags m0 (Z.of_nat n)
        (Nat.iter n shr_1 {| shr_m := m0; shr_r := false; shr_s := false |}).
Proof.
  intros Hm. induction n as [|n IH].
  - unfold flags. cbn [Nat.iter shr_m shr_r shr_s Z.of_nat].
    rewrite Z.pow_0_r, Z.div_1_r, Z.mod_1_r. repeat split.
  - rewrite Nat2Z.inj_succ, <- Z.add_1_r. cbn [Nat.iter].
    apply flags_step; [exact Hm | lia | exact IH].
Qed.

Lemma flags_round (m0 n : Z) (mrs : shr_record) :
  0 <= n -> flags m0 n mrs ->
  round_nearest_even (shr_m mrs) (loc_of_shr_record mrs) = rne m0 n.
Proof.
  intros Hn (Hq & Hr & Hs). destruct mrs as [m r s]. cbn [shr_m shr_r shr_s] in *.
  assert (Hp : 0 < 2 ^ n) by (apply Z.pow_pos_nonneg; lia).
  pose proof (Z.mod_pos_bound m0 (2 ^ n) Hp) as Hrem.
  unfold rne. rewrite <- Hq. subst r s.
  destruct (Z.compare_spec (2 * (m0 mod 2 ^ n)) (2 ^ n)) as [Heq|Hlt|Hgt].
  - rewrite Heq, Z.leb_refl, Z.eqb_refl, orb_true_r. reflexivity.
  - destruct (Z.leb_spec (2 ^ n) (2 * (m0 mod 2 ^ n))); [lia|].
    destruct (Z.eqb_spec (m0 mod 2 ^ n) 0), (Z.eqb_spec (2 * (m0 mod 2 ^ n)) (2 ^ n));
      reflexivity.
  - destruct (Z.leb_spec (2 ^ n) (2 * (m0 mod 2 ^ n))); [|lia].
    destruct (Z.eqb_spec (m0 mod 2 ^ n) 0); [lia|].
    destruct (Z.eqb_spec (2 * (m0 mod 2 ^ n)) (2 ^ n)); [lia|]. reflexivity.
Qed.

(** Shifting [m0] right by [n] and rounding to nearest even. *)
Lemma shr_round (m0 e n : Z) :
  0 <= m0 -> 0 <= n ->
  round_nearest_even
    (shr_m (fst (shr (shr_record_of_loc m0 loc_Exact) e n)))
    (loc_of_shr_record (fst (shr (shr_record_of_loc m0 loc_Exact) e n)))
  = rne m0 n
  /\ snd (shr (shr_record_of_loc m0 loc_Exact) e n) = e + n.
Proof.
  intros Hm Hn. cbn [shr_record_of_loc].
  destruct n as [|p|p]; [| |lia].
  - cbn [shr fst snd shr_m loc_of_shr_record round_nearest_even].
    unfold rne. rewrite Z.pow_0_r, Z.div_1_r, Z.mod_1_r. cbn. split; [reflexivity|lia].
  - cbn [shr fst snd]. split; [|reflexivity].
    rewrite iter_pos_nat. apply flags_round; [lia|].
    rewrite <- positive_nat_Z. now apply flags_iter.
Qed.

(** *** Rounding an integer of units of 2^-1074 *)

Lemma digits2_pos_log2 (m : positive) : Zpos (digits2_pos m) = Z.log2 (Zpos m) + 1.
Proof.
  induction m as [m IH|m IH|]; cbn [digits2_pos]; [| |reflexivity];
    rewrite Pos2Z.inj_succ, IH.
  - change (Zpos m~1) with (2 * Zpos m + 1).
    rewrite Z.log2_succ_double by lia. lia.
  - change (Zpos m~0) with (2 * Zpos m).
    rewrite Z.log2_double by lia. lia.
Qed.

Lemma iter_xO (m d : positive) : Zpos (Pos.iter xO m d) = Zpos m * 2 ^ Zpos d.
Proof.
  induction d as [|d IH] using Pos.peano_ind.
  - cbn. lia.
  - rewrite Pos.iter_succ, Pos2Z.inj_succ, Z.pow_succ_r by lia.
    rewrite Pos2Z.inj_xO, IH. ring.
Qed.

Lemma compare_mul_r (a b c : Z) : 0 < c -> (a * c ?= b * c) = (a ?= b).
Proof.
  intros Hc. destruct (Z.compare_spec a b) as [->|H|H].
  - apply Z.compare_refl.
  - apply Z.compare_lt_iff. nia.
  - apply Z.compare_gt_iff. nia.
Qed.

Lemma rne_exact (m a : Z) : 0 <= a -> rne (m * 2 ^ a) a = m.
Proof.
  intros Ha. unfold rne.
  assert (Hp : 0 < 2 ^ a) by (apply Z.pow_pos_nonneg; lia).
  rewrite Z.mod_mul, Z.div_mul by lia.
  destruct (Z.compare_spec (2 * 0) (2 ^ a)); [lia | reflexivity | lia].
Qed.

Lemma rne_scale (m n a : Z) : 0 <= n -> 0 <= a -> rne (m * 2 ^ a) (n + a) = rne m n.
Proof.
  intros Hn Ha. unfold rne.
  assert (Hp : 0 < 2 ^ a) by (apply Z.pow_pos_nonneg; lia).
  assert (Hq : 0 < 2 ^ n) by (apply Z.pow_pos_nonneg; lia).
  rewrite Z.pow_add_r by lia.
  rewrite Z.div_mul_cancel_r, Z.mul_mod_distr_r by lia.
  replace (2 * (m mod 2 ^ n * 2 ^ a)) with (2 * (m mod 2 ^ n) * 2 ^ a) by ring.
  rewrite compare_mul_r by exact Hp. reflexivity.
Qed.

Lemma rne_bounds (N : Z) :
  0 < N ->
  (shift N = 0 /\ rne N (shift N) = N /\ N < 2 ^ 53)
  \/ (0 < shift N /\ 2 ^ 52 <= rne N (shift N) <= 2 ^ 53).
Proof.
  intros HN. pose proof (Z.log2_spec N HN) as [Hlo Hhi].
  pose proof (Z.log2_nonneg N) as Hlog.
  unfold shift. destruct (Z.max_spec (Z.log2 N + 1 - 53) 0) as [[Hk ->]|[Hk ->]].
  - left. repeat split.
    + unfold rne. rewrite Z.pow_0_r, Z.div_1_r, Z.mod_1_r. reflexivity.
    + eapply Z.lt_le_trans; [exact Hhi|]. apply Z.pow_le_mono_r; lia.
  - destruct (Z.eq_dec (Z.log2 N + 1 - 53) 0) as [H0|H0].
    + left. rewrite H0. repeat split.
      * unfold rne. rewrite Z.pow_0_r, Z.div_1_r, Z.mod_1_r. reflexivity.
      * eapply Z.lt_le_trans; [exact Hhi|]. apply Z.pow_le_mono_r; lia.
    + right. split; [lia|].
      set (k := Z.log2 N + 1 - 53) in *.
      assert (Hp : 0 < 2 ^ k) by (apply Z.pow_pos_nonneg; lia).
      replace (Z.log2 N) with (52 + k) in Hlo by lia.
      replace (Z.succ (Z.log2 N)) with (53 + k) in Hhi by lia.
      rewrite Z.pow_add_r in Hlo, Hhi by lia.
      assert (Hq : 2 ^ 52 <= N / 2 ^ k < 2 ^ 53).
      { split.
        - apply Z.div_le_lower_bound; lia.
        - apply Z.div_lt_upper_bound; lia. }
      unfold rne.
      destruct (2 * (N mod 2 ^ k) ?= 2 ^ k); [destruct (Z.even (N / 2 ^ k))| |]; lia.
Qed.

Lemma fexp_eq (x : Z) : fexp prec emax x = Z.max (x - 53) (-1074).
Proof. reflexivity. Qed.

Lemma log2_scaled (m : positive) (a : Z) :
  0 <= a -> Z.log2 (Zpos m * 2 ^ a) = Z.log2 (Zpos m) + a.
Proof. intros Ha. rewrite Z.log2_mul_pow2 by lia. lia. Qed.

(** The second shift of [binary_round_aux]: by one when rounding carried
    into a 54th bit, by none otherwise. *)
Lemma second_shift (s : bool) (m2 e' : Z) :
  (e' = -1074 /\ 0 < m2 < 2 ^ 53) \/ (-1074 < e' /\ 2 ^ 52 <= m2 <= 2 ^ 53) ->
  (let '(mrs, e'') := shr_fexp prec emax m2 e' loc_Exact in
   match shr_m mrs with
   | Z0 => S754_zero s
   | Zpos m => if e'' <=? emax - prec then S754_finite s m e'' else S754_infinity s
   | Zneg _ => S754_nan
   end)
  = if m2 =? 2 ^ 53 then finish s (2 ^ 52) (e' + 1) else finish s m2 e'.
Proof.
  intros H. unfold shr_fexp. rewrite fexp_eq.
  assert (Hpos : 0 < m2) by (destruct H as [[_ H]|[_ H]]; [lia|];
                             assert (0 < 2 ^ 52) by (apply Z.pow_pos_nonneg; lia); lia).
  destruct m2 as [|p|p]; [lia| |lia].
  cbn [Zdigits2]. rewrite digits2_pos_log2.
  pose proof (Z.log2_spec (Zpos p) ltac:(lia)) as [Hlo Hhi].
  pose proof (Z.log2_nonneg (Zpos p)) as Hlog.
  destruct (Z.eqb_spec (Zpos p) (2 ^ 53)) as [Heq|Hne].
  - destruct H as [[_ H]|[He _]]; [lia|].
    rewrite Heq, Z.log2_pow2 by lia.
    replace (Z.max (53 + 1 + e' - 53) (-1074) - e') with 1 by lia.
    reflexivity.
  - assert (Hlt : Zpos p < 2 ^ 53) by (destruct H as [[_ H]|[_ H]]; lia).
    assert (Hd : Z.log2 (Zpos p) < 53) by (apply Z.log2_lt_pow2; lia).
    assert (Z.max (Z.log2 (Zpos p) + 1 + e' - 53) (-1074) - e' = 0) as ->.
    { destruct H as [[-> _]|[He [H52 _]]]; [lia|].
      assert (52 <= Z.log2 (Zpos p)) by (apply Z.log2_le_pow2; lia). lia. }
    reflexivity.
Qed.

Lemma binary_round_aux_scaled (s : bool) (mz : positive) (ez : Z) :
  -1074 <= ez ->
  ez <= fexp prec emax (Zpos (digits2_pos mz) + ez) ->
  binary_round_aux prec emax s (Zpos mz) ez loc_Exact
  = round s (Zpos mz * 2 ^ (ez + 1074)).
Proof.
  intros Hez Hfexp. rewrite fexp_eq, digits2_pos_log2 in Hfexp.
  unfold binary_round_aux.
  set (N := Zpos mz * 2 ^ (ez + 1074)).
  assert (HN : 0 < N) by (apply Z.mul_pos_pos; [lia | apply Z.pow_pos_nonneg; lia]).
  assert (Hlog : Z.log2 N = Z.log2 (Zpos mz) + (ez + 1074))
    by (apply log2_scaled; lia).
  pose proof (Z.log2_nonneg (Zpos mz)) as Hlogm.
  set (n1 := fexp prec emax (Zdigits2 (Zpos mz) + ez) - ez).
  assert (Hn1 : n1 = shift N - (ez + 1074)).
  { unfold n1, shift. cbn [Zdigits2]. rewrite fexp_eq, digits2_pos_log2, Hlog. lia. }
  assert (Hn1pos : 0 <= n1).
  { unfold n1. cbn [Zdigits2]. rewrite fexp_eq, digits2_pos_log2. lia. }
  unfold shr_fexp at 1. fold n1.
  destruct (shr_round (Zpos mz) ez n1 ltac:(lia) Hn1pos) as [Hround Hexp].
  destruct (shr (shr_record_of_loc (Zpos mz) loc_Exact) ez n1) as [mrs' e1].
  cbn [fst snd] in Hround, Hexp. rewrite Hround, Hexp.
  assert (Hrne : rne (Zpos mz) n1 = rne N (shift N)).
  { unfold N. replace (shift (Zpos mz * 2 ^ (ez + 1074))) with (n1 + (ez + 1074))
      by (fold N; lia).
    symmetry. apply rne_scale; lia. }
  rewrite Hrne. replace (ez + n1) with (shift N - 1074) by lia.
  unfold round.
  rewrite second_shift.
  - replace (shift N - 1074 + 1) with (shift N + 1 - 1074) by lia. reflexivity.
  - destruct (rne_bounds N HN) as [(H0 & Heq & Hlt)|[Hk Hb]].
    + left. rewrite Heq. lia.
    + right. lia.
Qed.

(** [binary_round] is a function of the value in units of 2^-1074. *)
Lemma binary_round_scaled (s : bool) (m : positive) (e : Z) :
  -1074 <= e ->
  binary_round prec emax s m e = round s (Zpos m * 2 ^ (e + 1074)).
Proof.
  intros He. unfold binary_round, shl_align.
  rewrite fexp_eq.
  destruct (Z.max (Zpos (digits2_pos m) + e - 53) (-1074) - e) as [|d|d] eqn:Hd.
  - apply binary_round_aux_scaled; [exact He | rewrite fexp_eq; lia].
  - apply binary_round_aux_scaled; [exact He | rewrite fexp_eq; lia].
  - rewrite binary_round_aux_scaled.
    + f_equal. rewrite iter_xO.
      rewrite <- Z.mul_assoc, <- Z.pow_add_r by lia. do 2 f_equal. lia.
    + lia.
    + rewrite fexp_eq, !digits2_pos_log2, iter_xO, log2_scaled by lia.
      rewrite digits2_pos_log2 in Hd. lia.
Qed.

(** *** Values and comparison *)

Lemma valid_binary_canonical (f : spec_float) :
  SpecFloat.valid_binary prec emax f = true -> canonical f.
Proof.
  destruct f as [s|s| |s m e]; try (intros _; exact I).
  cbn [SpecFloat.valid_binary canonical]. unfold bounded, canonical_mantissa.
  rewrite fexp_eq, digits2_pos_log2. intros H.
  apply andb_true_iff in H as [Hc He]. apply Z.eqb_eq in Hc. apply Z.leb_le in He.
  change (emax - prec) with 971 in He.
  pose proof (Z.log2_spec (Zpos m) ltac:(lia)) as [Hlo Hhi].
  pose proof (Z.log2_nonneg (Zpos m)) as Hlog.
  destruct (Z.max_spec (Z.log2 (Zpos m) + 1 + e - 53) (-1074)) as [[Hlt Hmax]|[Hge Hmax]];
    rewrite Hmax in Hc.
  - repeat split; try lia.
    eapply Z.lt_le_trans; [exact Hhi|]. apply Z.pow_le_mono_r; lia.
  - assert (Hlog52 : Z.log2 (Zpos m) = 52) by lia. rewrite Hlog52 in Hlo, Hhi.
    repeat split; lia.
Qed.

Lemma pow2_pos (a : Z) : 0 <= a -> 0 < 2 ^ a.
Proof. intros. apply Z.pow_pos_nonneg; lia. Qed.

Lemma finite_bound (m : positive) (e : Z) :
  -1074 <= e <= 971 -> Zpos m < 2 ^ 53 ->
  0 < Zpos m * 2 ^ (e + 1074) < 2 ^ 2098.
Proof.
  intros He Hm. pose proof (pow2_pos (e + 1074) ltac:(lia)) as Hp. split; [lia|].
  apply Z.lt_le_trans with (2 ^ 53 * 2 ^ (e + 1074)); [nia|].
  rewrite <- Z.pow_add_r by lia. apply Z.pow_le_mono_r; lia.
Qed.

Lemma pow2_2098_2100 : 2 ^ 2098 < 2 ^ 2100.
Proof. apply Z.pow_lt_mono_r; lia. Qed.

(** Canonical mantissas and exponents are ordered as their values are. *)
Lemma lex_compare (m m' : positive) (e e' : Z) :
  canonical (S754_finite false m e) -> canonical (S754_finite false m' e') ->
  match e ?= e' with
  | Lt => Lt
  | Gt => Gt
  | Eq => Pos.compare_cont Eq m m'
  end
  = (Zpos m * 2 ^ (e + 1074) ?= Zpos m' * 2 ^ (e' + 1074)).
Proof.
  cbn [canonical]. intros (He & Hm & Hn) (He' & Hm' & Hn').
  assert (Hstep : forall (a a' : positive) (b b' : Z),
             -1074 <= b -> b < b' -> Zpos a < 2 ^ 53 -> 2 ^ 52 <= Zpos a' ->
             Zpos a * 2 ^ (b + 1074) < Zpos a' * 2 ^ (b' + 1074)).
  { intros a a' b b' Hb Hbb Ha Ha'.
    pose proof (pow2_pos (b + 1074) ltac:(lia)) as Hp.
    pose proof (pow2_pos (b' - b - 1) ltac:(lia)) as Hq.
    replace (b' + 1074) with ((b + 1074) + 1 + (b' - b - 1)) by lia.
    rewrite (Z.pow_add_r 2 (b + 1074 + 1) (b' - b - 1)),
      (Z.pow_add_r 2 (b + 1074) 1), Z.pow_1_r by lia.
    change (2 ^ 53) with (2 * 2 ^ 52) in Ha.
    set (p := 2 ^ (b + 1074)) in *. set (q := 2 ^ (b' - b - 1)) in *.
    assert (H0 : Zpos a < 2 * Zpos a') by lia.
    assert (H1 : Zpos a * p < 2 * Zpos a' * p)
      by (apply Z.mul_lt_mono_pos_r; [exact Hp | exact H0]).
    assert (H2 : 2 * Zpos a' * p * 1 <= 2 * Zpos a' * p * q)
      by (apply Z.mul_le_mono_nonneg_l; lia).
    lia. }
  destruct (Z.compare_spec e e') as [->|Hlt|Hgt]; symmetry.
  - rewrite compare_mul_r by (apply pow2_pos; lia). reflexivity.
  - apply Z.compare_lt_iff. apply Hstep; lia.
  - apply Z.compare_gt_iff. apply Hstep; lia.
Qed.

Ltac compare_values :=
  f_equal; symmetry;
  first [ apply Z.compare_refl
        | apply Z.compare_lt_iff; lia
        | apply Z.compare_gt_iff; lia ].

Lemma compare_xval (f1 f2 : spec_float) :
  canonical f1 -> canonical f2 -> isNan f1 = false -> isNan f2 = false ->
  SFcompare f1 f2 = Some (xval f1 ?= xval f2).
Proof.
  pose proof pow2_2098_2100 as Hinf.
  pose proof (pow2_pos 2098 ltac:(lia)) as Hbig.
  intros H1 H2 N1 N2.
  destruct f1 as [s1|s1| |s1 m1 e1], f2 as [s2|s2| |s2 m2 e2];
    try discriminate; cbn [SFcompare xval]; clear N1 N2.
  - reflexivity.
  - destruct s2; compare_values.
  - destruct H2 as (He & Hm & _). pose proof (finite_bound m2 e2 He Hm).
    destruct s2; compare_values.
  - destruct s1; compare_values.
  - destruct s1, s2; compare_values.
  - destruct H2 as (He & Hm & _). pose proof (finite_bound m2 e2 He Hm).
    destruct s1, s2; compare_values.
  - destruct H1 as (He & Hm & _). pose proof (finite_bound m1 e1 He Hm).
    destruct s1; compare_values.
  - destruct H1 as (He & Hm & _). pose proof (finite_bound m1 e1 He Hm).
    destruct s1, s2; compare_values.
  - pose proof H1 as (He1 & Hm1 & _). pose proof (finite_bound m1 e1 He1 Hm1).
    pose proof H2 as (He2 & Hm2 & _). pose proof (finite_bound m2 e2 He2 Hm2).
    change (canonical (S754_finite false m1 e1)) in H1.
    change (canonical (S754_finite false m2 e2)) in H2.
    destruct s1, s2; f_equal.
    + rewrite Z.compare_opp, <- (lex_compare m2 m1 e2 e1 H2 H1).
      rewrite (Z.compare_antisym e1 e2).
      change (Pos.compare_cont Eq m2 m1) with (Pos.compare m2 m1).
      change (Pos.compare_cont Eq m1 m2) with (Pos.compare m1 m2).
      rewrite (Pos.compare_antisym m1 m2).
      destruct (e1 ?= e2); reflexivity.
    + symmetry. apply Z.compare_lt_iff. lia.
    + symmetry. apply Z.compare_gt_iff. lia.
    + apply lex_compare; assumption.
Qed.

(** *** The rounded value is monotone *)

Lemma mul_pow_lt (m k a b : Z) :
  0 <= k -> 0 <= a -> m < 2 ^ a -> a + k <= b -> m * 2 ^ k < 2 ^ b.
Proof.
  intros Hk Ha Hm Hb. pose proof (pow2_pos k Hk) as Hp.
  apply Z.lt_le_trans with (2 ^ a * 2 ^ k).
  - apply Z.mul_lt_mono_pos_r; assumption.
  - rewrite <- Z.pow_add_r by lia. apply Z.pow_le_mono_r; lia.
Qed.

Lemma mul_pow_ge (m k a b : Z) :
  0 <= k -> 0 <= b -> 2 ^ a <= m -> b <= a + k -> 0 <= a -> 2 ^ b <= m * 2 ^ k.
Proof.
  intros Hk Hb Hm Hab Ha. pose proof (pow2_pos k Hk) as Hp.
  apply Z.le_trans with (2 ^ a * 2 ^ k).
  - rewrite <- Z.pow_add_r by lia. apply Z.pow_le_mono_r; lia.
  - apply Z.mul_le_mono_nonneg_r; lia.
Qed.

Lemma shift_nonneg (N : Z) : 0 <= shift N.
Proof. unfold shift. lia. Qed.

Lemma round_spec (s : bool) (N : Z) :
  0 < N ->
  canonical (round s N) /\ isNan (round s N) = false
  /\ xval (round s N) = if s then - cap (out N) else cap (out N).
Proof.
  intros HN. unfold round, out, cap.
  pose proof (shift_nonneg N) as Hk0.
  destruct (rne_bounds N HN) as [(Hk & Heq & Hlt)|[Hk [Hlo Hhi]]].
  - rewrite Hk, Heq in *. rewrite Z.pow_0_r, Z.mul_1_r.
    destruct (Z.eqb_spec N (2 ^ 53)) as [E|_]; [lia|].
    assert (Hsmall : N < 2 ^ 2098)
      by (eapply Z.lt_le_trans; [exact Hlt | apply Z.pow_le_mono_r; lia]).
    destruct (Z.ltb_spec N (2 ^ 2098)) as [_|]; [|lia].
    destruct N as [|p|p]; try lia.
    cbn [finish Z.sub Z.add Z.leb Z.compare canonical isNan xval Z.pos_sub Z.opp].
    rewrite Z.pow_0_r, Z.mul_1_r. repeat split; try lia; try (now destruct s).
  - set (k := shift N) in *. set (m := rne N k) in *.
    pose proof (pow2_pos k Hk0) as Hp.
    destruct (Z.eqb_spec m (2 ^ 53)) as [E|Hne].
    + rewrite E. change (2 ^ 52) with 4503599627370496.
      cbn [finish].
      assert (Hout : 2 ^ 53 * 2 ^ k = 2 ^ (53 + k)) by (rewrite Z.pow_add_r; lia).
      rewrite Hout.
      destruct (Z.leb_spec (k + 1 - 1074) 971) as [He|He].
      * assert (Hsmall : 2 ^ (53 + k) < 2 ^ 2098) by (apply Z.pow_lt_mono_r; lia).
        destruct (Z.ltb_spec (2 ^ (53 + k)) (2 ^ 2098)) as [_|]; [|lia].
        cbn [canonical isNan xval]. repeat split; try lia.
        replace (k + 1 - 1074 + 1074) with (1 + k) by lia.
        rewrite <- Hout, (Z.pow_add_r 2 1 k), Z.pow_1_r by lia.
        change (2 ^ 53) with 9007199254740992. destruct s; lia.
      * assert (Hbig : 2 ^ 2098 <= 2 ^ (53 + k)) by (apply Z.pow_le_mono_r; lia).
        destruct (Z.ltb_spec (2 ^ (53 + k)) (2 ^ 2098)) as [|_]; [lia|].
        cbn [canonical isNan xval]. repeat split.
    + assert (Hm : m < 2 ^ 53) by lia.
      assert (Hmpos : 0 < m) by (pose proof (pow2_pos 52 ltac:(lia)); lia).
      destruct m as [|p|p] eqn:Em; try lia. cbn [finish].
      destruct (Z.leb_spec (k - 1074) 971) as [He|He].
      * assert (Hsmall : Zpos p * 2 ^ k < 2 ^ 2098)
          by (apply mul_pow_lt with (a := 53); lia).
        destruct (Z.ltb_spec (Zpos p * 2 ^ k) (2 ^ 2098)) as [_|]; [|lia].
        cbn [canonical isNan xval]. replace (k - 1074 + 1074) with k by lia.
        repeat split; try lia; try (now destruct s).
      * assert (Hbig : 2 ^ 2098 <= Zpos p * 2 ^ k)
          by (apply mul_pow_ge with (a := 52); lia).
        destruct (Z.ltb_spec (Zpos p * 2 ^ k) (2 ^ 2098)) as [|_]; [lia|].
        cbn [canonical isNan xval]. repeat split.
Qed.

Lemma rne_mono (m m' n : Z) : 0 <= n -> m <= m' -> rne m n <= rne m' n.
Proof.
  intros Hn Hle. unfold rne.
  pose proof (pow2_pos n Hn) as Hp.
  pose proof (Z.div_mod m (2 ^ n) ltac:(lia)) as Hm.
  pose proof (Z.div_mod m' (2 ^ n) ltac:(lia)) as Hm'.
  pose proof (Z.mod_pos_bound m (2 ^ n) Hp) as Hr.
  pose proof (Z.mod_pos_bound m' (2 ^ n) Hp) as Hr'.
  pose proof (Z.div_le_mono m m' (2 ^ n) Hp Hle) as Hq.
  set (p := 2 ^ n) in *. set (q := m / p) in *. set (q' := m' / p) in *.
  set (r := m mod p) in *. set (r' := m' mod p) in *.
  destruct (Z.eq_dec q q') as [E|Hne].
  - rewrite <- E in *. assert (r <= r') by lia.
    destruct (Z.compare_spec (2 * r) p), (Z.compare_spec (2 * r') p);
      destruct (Z.even q); lia.
  - assert (q + 1 <= q') by lia.
    destruct (Z.compare_spec (2 * r) p), (Z.compare_spec (2 * r') p);
      destruct (Z.even q), (Z.even q'); lia.
Qed.

Lemma rne_lower (m n : Z) : 0 <= n -> m / 2 ^ n <= rne m n.
Proof.
  intros Hn. unfold rne.
  destruct (2 * (m mod 2 ^ n) ?= 2 ^ n); [destruct (Z.even (m / 2 ^ n))| |]; lia.
Qed.

Lemma shift_mono (N N' : Z) : 0 < N -> N <= N' -> shift N <= shift N'.
Proof.
  intros HN Hle. unfold shift. pose proof (Z.log2_le_mono N N' Hle). lia.
Qed.

Lemma out_mono (N N' : Z) : 0 < N -> N <= N' -> out N <= out N'.
Proof.
  intros HN Hle. unfold out.
  pose proof (shift_mono N N' HN Hle) as Hshift.
  pose proof (shift_nonneg N) as Hk0.
  destruct (Z.eq_dec (shift N) (shift N')) as [E|Hne].
  - rewrite <- E. apply Z.mul_le_mono_nonneg_r; [pose proof (pow2_pos _ Hk0); lia|].
    now apply rne_mono.
  - assert (Hlt : shift N < shift N') by lia.
    assert (Hup : rne N (shift N) * 2 ^ shift N <= 2 ^ (53 + shift N)).
    { rewrite Z.pow_add_r by lia.
      apply Z.mul_le_mono_nonneg_r; [pose proof (pow2_pos _ Hk0); lia|].
      destruct (rne_bounds N HN) as [(_ & Heq & Hlt53)|[_ [_ Hhi]]]; lia. }
    assert (Hdown : 2 ^ (52 + shift N') <= rne N' (shift N') * 2 ^ shift N').
    { destruct (rne_bounds N' ltac:(lia)) as [(H0 & _)|[_ [Hlo _]]]; [lia|].
      apply mul_pow_ge with (a := 52); lia. }
    assert (2 ^ (53 + shift N) <= 2 ^ (52 + shift N')) by (apply Z.pow_le_mono_r; lia).
    lia.
Qed.

Lemma out_pos (N : Z) : 0 < N -> 0 < out N.
Proof.
  intros HN. unfold out. pose proof (pow2_pos _ (shift_nonneg N)).
  destruct (rne_bounds N HN) as [(_ & -> & _)|[_ [Hlo _]]].
  - lia.
  - pose proof (pow2_pos 52 ltac:(lia)). nia.
Qed.

Lemma cap_mono (v v' : Z) : v <= v' -> cap v <= cap v'.
Proof.
  intros H. unfold cap. pose proof pow2_2098_2100.
  destruct (Z.ltb_spec v (2 ^ 2098)), (Z.ltb_spec v' (2 ^ 2098)); lia.
Qed.

Lemma cap_pos (v : Z) : 0 < v -> 0 < cap v.
Proof.
  intros H. unfold cap. pose proof (pow2_pos 2100 ltac:(lia)).
  destruct (Z.ltb_spec v (2 ^ 2098)); lia.
Qed.

Lemma nearest_spec (N : Z) :
  canonical (nearest N) /\ isNan (nearest N) = false /\ xval (nearest N) = rounded N.
Proof.
  unfold nearest, binary_normalize, rounded. destruct N as [|p|p].
  - repeat split.
  - rewrite binary_round_scaled by lia. cbn [Z.add]. rewrite Z.pow_0_r, Z.mul_1_r.
    apply (round_spec false). lia.
  - rewrite binary_round_scaled by lia. cbn [Z.add]. rewrite Z.pow_0_r, Z.mul_1_r.
    apply (round_spec true). lia.
Qed.

Lemma rounded_mono (N N' : Z) : N <= N' -> rounded N <= rounded N'.
Proof.
  intros H. destruct N as [|p|p], N' as [|p'|p']; cbn [rounded]; try lia.
  - pose proof (cap_pos _ (out_pos (Zpos p') ltac:(lia))). lia.
  - apply cap_mono, out_mono; lia.
  - pose proof (cap_pos _ (out_pos (Zpos p) ltac:(lia))). lia.
  - pose proof (cap_pos _ (out_pos (Zpos p) ltac:(lia))).
    pose proof (cap_pos _ (out_pos (Zpos p') ltac:(lia))). lia.
  - assert (cap (out (Zpos p')) <= cap (out (Zpos p))) by (apply cap_mono, out_mono; lia).
    lia.
Qed.

(** *** Addition *)

Lemma binary_normalize_scaled (M e : Z) :
  -1074 <= e ->
  binary_normalize prec emax M e false = nearest (M * 2 ^ (e + 1074)).
Proof.
  intros He. pose proof (pow2_pos (e + 1074) ltac:(lia)) as Hp.
  unfold nearest, binary_normalize. destruct M as [|m|m].
  - reflexivity.
  - destruct (Zpos m * 2 ^ (e + 1074)) as [|p|p] eqn:E; try lia.
    rewrite !binary_round_scaled by lia. rewrite E. cbn [Z.add].
    now rewrite Z.pow_0_r, Z.mul_1_r.
  - destruct (Zneg m * 2 ^ (e + 1074)) as [|p|p] eqn:E; try lia.
    rewrite !binary_round_scaled by lia. cbn [Z.add].
    rewrite Z.pow_0_r, Z.mul_1_r. f_equal. lia.
Qed.

Lemma shl_align_value (mx : positive) (ex ez : Z) :
  ez <= ex -> -1074 <= ez ->
  Zpos (fst (shl_align mx ex ez)) * 2 ^ (ez + 1074) = Zpos mx * 2 ^ (ex + 1074).
Proof.
  intros Hle Hez. unfold shl_align.
  destruct (ez - ex) as [|d|d] eqn:E; cbn [fst].
  - do 2 f_equal. lia.
  - lia.
  - rewrite iter_xO, <- Z.mul_assoc, <- Z.pow_add_r by lia. do 2 f_equal. lia.
Qed.

Lemma round_canonical (s : bool) (m : positive) (e : Z) :
  canonical (S754_finite s m e) ->
  round s (Zpos m * 2 ^ (e + 1074)) = S754_finite s m e.
Proof.
  cbn [canonical]. intros (He & Hm & Hn). unfold round.
  pose proof (Z.log2_nonneg (Zpos m)) as Hlog.
  assert (Hd : Z.log2 (Zpos m) < 53) by (apply Z.log2_lt_pow2; lia).
  assert (Hshift : shift (Zpos m * 2 ^ (e + 1074)) = e + 1074).
  { unfold shift. rewrite log2_scaled by lia.
    destruct Hn as [->|Hn]; [lia|].
    assert (52 <= Z.log2 (Zpos m)) by (apply Z.log2_le_pow2; lia). lia. }
  rewrite Hshift, rne_exact by lia.
  destruct (Z.eqb_spec (Zpos m) (2 ^ 53)); [lia|].
  cbn [finish]. replace (e + 1074 - 1074) with e by lia.
  destruct (Z.leb_spec e 971); [reflexivity | lia].
Qed.

Lemma rounded_canonical (s : bool) (m : positive) (e : Z) :
  canonical (S754_finite s m e) ->
  rounded (xval (S754_finite s m e)) = xval (S754_finite s m e).
Proof.
  intros H. destruct (nearest_spec (xval (S754_finite s m e))) as (_ & _ & <-).
  f_equal. pose proof H as (He & _).
  pose proof (pow2_pos (e + 1074) ltac:(lia)) as Hp.
  unfold nearest, binary_normalize. cbn [xval].
  destruct s.
  - destruct (- (Zpos m * 2 ^ (e + 1074))) as [|p|p] eqn:E; try lia.
    rewrite binary_round_scaled by lia. cbn [Z.add]. rewrite Z.pow_0_r, Z.mul_1_r.
    replace (Zpos p) with (Zpos m * 2 ^ (e + 1074)) by lia.
    now apply round_canonical.
  - destruct (Zpos m * 2 ^ (e + 1074)) as [|p|p] eqn:E; try lia.
    rewrite binary_round_scaled by lia. cbn [Z.add]. rewrite Z.pow_0_r, Z.mul_1_r.
    rewrite <- E. now apply round_canonical.
Qed.

Lemma out_2098 : out (2 ^ 2098) = 2 ^ 2098.
Proof.
  unfold out.
  assert (Hshift : shift (2 ^ 2098) = 2046)
    by (unfold shift; rewrite Z.log2_pow2 by lia; reflexivity).
  rewrite Hshift.
  replace (2 ^ 2098) with (2 ^ 52 * 2 ^ 2046) at 1
    by (rewrite <- Z.pow_add_r by lia; reflexivity).
  rewrite rne_exact by lia. rewrite <- Z.pow_add_r by lia. reflexivity.
Qed.

Lemma rounded_big (N : Z) : 2 ^ 2098 <= N -> rounded N = 2 ^ 2100.
Proof.
  intros H. pose proof (pow2_pos 2098 ltac:(lia)) as Hp.
  destruct N as [|p|p]; try lia. cbn [rounded]. unfold cap.
  pose proof (out_mono (2 ^ 2098) (Zpos p) Hp H) as Hout. rewrite out_2098 in Hout.
  destruct (Z.ltb_spec (out (Zpos p)) (2 ^ 2098)); [lia | reflexivity].
Qed.

Lemma rounded_small (N : Z) : N <= - 2 ^ 2098 -> rounded N = - 2 ^ 2100.
Proof.
  intros H. pose proof (pow2_pos 2098 ltac:(lia)) as Hp.
  destruct N as [|p|p]; try lia. cbn [rounded]. unfold cap.
  pose proof (out_mono (2 ^ 2098) (Zpos p) Hp ltac:(lia)) as Hout.
  rewrite out_2098 in Hout.
  destruct (Z.ltb_spec (out (Zpos p)) (2 ^ 2098)); [lia | reflexivity].
Qed.

Lemma xval_bound (f : spec_float) :
  canonical f ->
  match f with
  | S754_infinity _ => True
  | _ => - 2 ^ 2098 < xval f < 2 ^ 2098
  end.
Proof.
  pose proof (pow2_pos 2098 ltac:(lia)) as Hp.
  destruct f as [s|s| |s m e]; cbn [canonical xval]; try lia.
  intros (He & Hm & _). pose proof (finite_bound m e He Hm). destruct s; lia.
Qed.

(** The sum of two numbers is the number nearest to the sum of their
    values. *)
Lemma SFadd_rounded (x y : spec_float) :
  canonical x -> canonical y -> isNan x = false -> isNan y = false ->
  isNan (SFadd prec emax x y) = false ->
  canonical (SFadd prec emax x y)
  /\ xval (SFadd prec emax x y) = rounded (xval x + xval y).
Proof.
  intros Cx Cy Nx Ny Nsum.
  pose proof (xval_bound x Cx) as Bx. pose proof (xval_bound y Cy) as By.
  pose proof pow2_2098_2100 as Hinf.
  pose proof (pow2_pos 2098 ltac:(lia)) as Hp.
  assert (Hfour : 2 ^ 2100 = 4 * 2 ^ 2098)
    by (change 2100 with (2 + 2098); rewrite Z.pow_add_r by lia; reflexivity).
  destruct x as [sx|sx| |sx mx ex], y as [sy|sy| |sy my ey]; try discriminate.
  - destruct sx, sy; now split.
  - split; [exact I|]. cbn [SFadd xval]. symmetry.
    destruct sy; [apply rounded_small | apply rounded_big]; lia.
  - split; [exact Cy|]. cbn [SFadd]. cbn [xval Z.add].
    symmetry. apply (rounded_canonical sy my ey Cy).
  - split; [exact I|]. cbn [SFadd xval]. symmetry.
    destruct sx; [apply rounded_small | apply rounded_big]; lia.
  - destruct sx, sy; try discriminate; (split; [exact I|]); cbn [SFadd xval]; symmetry;
      [apply rounded_small | apply rounded_big]; lia.
  - split; [exact I|]. cbn [SFadd xval] in *. symmetry.
    destruct sx; [apply rounded_small | apply rounded_big]; lia.
  - split; [exact Cx|]. cbn [SFadd]. rewrite Z.add_0_r.
    symmetry. apply (rounded_canonical sx mx ex Cx).
  - split; [exact I|]. cbn [SFadd xval] in *. symmetry.
    destruct sy; [apply rounded_small | apply rounded_big]; lia.
  - clear Nx Ny Nsum Bx By. cbn [SFadd].
    pose proof Cx as (Hex & _). pose proof Cy as (Hey & _).
    rewrite binary_normalize_scaled by lia.
    destruct (nearest_spec
                ((cond_Zopp sx (Zpos (fst (shl_align mx ex (Z.min ex ey))))
                  + cond_Zopp sy (Zpos (fst (shl_align my ey (Z.min ex ey)))))
                 * 2 ^ (Z.min ex ey + 1074))) as (Hc & _ & Hv).
    split; [exact Hc|]. rewrite Hv. f_equal.
    rewrite Z.mul_add_distr_r. cbn [xval].
    pose proof (shl_align_value mx ex (Z.min ex ey) ltac:(lia) ltac:(lia)) as Hx.
    pose proof (shl_align_value my ey (Z.min ex ey) ltac:(lia) ltac:(lia)) as Hy.
    destruct sx, sy; cbn [cond_Zopp]; lia.
Qed.

(** *** Addition is monotone *)

Lemma not_less (f1 f2 : spec_float) :
  canonical f1 -> canonical f2 -> isNan f1 = false -> isNan f2 = false ->
  SFltb f1 f2 = false <-> xval f2 <= xval f1.
Proof.
  intros C1 C2 N1 N2. unfold SFltb. rewrite (compare_xval f1 f2 C1 C2 N1 N2).
  destruct (Z.compare_spec (xval f1) (xval f2)); split; intros; try lia;
    try reflexivity; discriminate.
Qed.

Lemma SFltb_nan_l (f : spec_float) : SFltb S754_nan f = false.
Proof. reflexivity. Qed.

Lemma SFltb_nan_r (f : spec_float) : SFltb f S754_nan = false.
Proof. unfold SFltb, SFcompare. now destruct f. Qed.

Lemma SFadd_nan (x y : spec_float) :
  isNan x = true \/ isNan y = true -> SFadd prec emax x y = S754_nan.
Proof. destruct x, y; cbn; intros [H|H]; try discriminate; reflexivity. Qed.

Theorem SFadd_monotone (x x' y y' : spec_float) :
  canonical x -> canonical x' -> canonical y -> canonical y' ->
  SFltb x' x = false -> SFltb y' y = false ->
  SFltb (SFadd prec emax x' y') (SFadd prec emax x y) = false.
Proof.
  intros Cx Cx' Cy Cy' Hx Hy.
  destruct (isNan x) eqn:Nx;
    [rewrite (SFadd_nan x y) by (now left); apply SFltb_nan_r|].
  destruct (isNan y) eqn:Ny;
    [rewrite (SFadd_nan x y) by (now right); apply SFltb_nan_r|].
  destruct (isNan x') eqn:Nx';
    [rewrite (SFadd_nan x' y') by (now left); apply SFltb_nan_l|].
  destruct (isNan y') eqn:Ny';
    [rewrite (SFadd_nan x' y') by (now right); apply SFltb_nan_l|].
  destruct (isNan (SFadd prec emax x y)) eqn:Ns.
  { destruct (SFadd prec emax x y); try discriminate. apply SFltb_nan_r. }
  destruct (isNan (SFadd prec emax x' y')) eqn:Ns'.
  { destruct (SFadd prec emax x' y'); try discriminate. apply SFltb_nan_l. }
  destruct (SFadd_rounded x y Cx Cy Nx Ny Ns) as [Cs Vs].
  destruct (SFadd_rounded x' y' Cx' Cy' Nx' Ny' Ns') as [Cs' Vs'].
  apply (not_less _ _ Cs' Cs Ns' Ns). rewrite Vs, Vs'.
  apply rounded_mono.
  apply (not_less _ _ Cx' Cx Nx' Nx) in Hx. apply (not_less _ _ Cy' Cy Ny' Ny) in Hy.
  lia.
Qed.

(** In binary64: if [a > a'] and [b > b'] are both false, so is
    [a + b > a' + b']. *)
Theorem add_monotone (a a' b b' : float) :
  (a' <? a)%float = false -> (b' <? b)%float = false ->
  (a' + b' <? a + b)%float = false.
Proof.
  rewrite !ltb_spec, !add_spec. unfold SF64add.
  apply SFadd_monotone; apply valid_binary_canonical, Prim2SF_valid.
Qed.

End Binary64Facts.

(** *** The validation gates *)

Ltac gate_cases :=
  repeat match goal with
         | |- context [if gt ?x ?y then _ else _] => destruct (gt x y) eqn:?
         | H : context [if gt ?x ?y then _ else _] |- _ => destruct (gt x y) eqn:?
         end.

(** When every gate passes the evaluator returns a result, unless the
    aircraft row has no cost figure. *)
Lemma all_gates_pass (flight : row) (airports aeroplanes : table) :
  firstFailing flight airports aeroplanes = None ->
  (exists r, validateAndCalculateProfit flight airports aeroplanes = inl r)
  \/ validateAndCalculateProfit flight airports aeroplanes = inr NoCostFigure.
Proof.
  rewrite evaluate_unfold.
  unfold firstFailing, gateOrder, evaluateAtDistance. cbn [List.find fails].
  destruct (airportOf flight airports) as [airportData|]; [|discriminate].
  destruct (aircraftOf flight aeroplanes) as [aircraftData|]; [|discriminate].
  destruct (aircraftData !! 1) as [costFigure|]; [|now right].
  gate_cases; try discriminate. intros _. left. eexists. reflexivity.
Qed.

(** C1. The evaluator runs its gates in the order unknown destination,
    unknown aircraft, insufficient range, total overbooking, economy,
    business, first-class overbooking: whatever the request and the tables,
    the first gate of that order that the request fails is the one error
    reported, whether or not later gates fail too. *)
Theorem C1_first_failing_gate_is_reported
  (flight : row) (airports aeroplanes : table) (g : gate) :
  firstFailing flight airports aeroplanes = Some g ->
  validateAndCalculateProfit flight airports aeroplanes
  = inr (reported g flight aeroplanes).
Proof.
  rewrite evaluate_unfold.
  unfold firstFailing, gateOrder, evaluateAtDistance, reported. cbn [List.find fails].
  destruct (airportOf flight airports) as [airportData|];
    [|intros [= <-]; reflexivity].
  destruct (aircraftOf flight aeroplanes) as [aircraftData|];
    [|intros [= <-]; reflexivity].
  destruct (aircraftData !! 1) as [costFigure|] eqn:Hcost.
  - gate_cases; intros [= <-]; reflexivity.
  - destruct (no_cost_figure_no_capacity aircraftData Hcost) as (-> & -> & Hcap).
    rewrite !Hcap, !gt_nan_r. discriminate.
Qed.

(** The second invalid request of the tests fails the total gate and all
    three class gates; the total gate, the first of them, is reported. *)
Lemma C1_witness :
  map (fun g => fails g ["LGW"; "ORY"; "Large narrow body"; "200"; "25"; "5";
                         "450"; "1200"; "2500"]
                  TestData.airportsData TestData.aeroplanesData) gateOrder
  = [false; false; false; true; true; true; true]
  /\ validateAndCalculateProfit
       ["LGW"; "ORY"; "Large narrow body"; "200"; "25"; "5"; "450"; "1200"; "2500"]
       TestData.airportsData TestData.aeroplanesData
     = inr (TooManyTotalSeats 230%float 204%float).
Proof.
  split.
  - vm_compute. reflexivity.
  - change (TooManyTotalSeats 230%float 204%float)
      with (reported TotalOverbooking
              ["LGW"; "ORY"; "Large narrow body"; "200"; "25"; "5"; "450"; "1200"; "2500"]
              TestData.aeroplanesData).
    apply C1_first_failing_gate_is_reported.
    vm_compute. reflexivity.
Defined.

(** C2. The worked example of the specification, on the tables of the
    tests: income 75636.00, cost 61716.48, profit 13919.52; the running cost
    is the cost figure with its currency symbol removed, divided by 100. *)
Theorem C2_end_to_end_example :
  validateAndCalculateProfit
    ["MAN"; "JFK"; "Large narrow body"; "150"; "12"; "2"; "399"; "999"; "1899"]
    TestData.airportsData TestData.aeroplanesData
  = inl {| flightDetails :=
             ["MAN"; "JFK"; "Large narrow body"; "150"; "12"; "2"; "399"; "999"; "1899"];
           income := "75636.00";
           cost := "61716.48";
           profit := "13919.52" |}
  /\ replace "£" "" "£7" = "7"
  /\ runningCost "£7" = (7 / 100)%float
  /\ selectedDistance
       ["MAN"; "JFK"; "Large narrow body"; "150"; "12"; "2"; "399"; "999"; "1899"]
       ["JFK"; "John F Kennedy International"; "5376"; "5583"] = 5376%float.
Proof. vm_compute. repeat split. Qed.

(** C4. A result is only returned for a request that passed every gate: its
    destination code is the key of a row of the airport table, its aircraft
    type the key of a row of the aircraft table, the selected distance is not
    greater than the maximum range, no class has more booked seats than its
    capacity, and the total booked is not greater than the total capacity. *)
Theorem C4_result_passed_all_gates
  (flight : row) (airports aeroplanes : table) (r : result) :
  validateAndCalculateProfit flight airports aeroplanes = inl r ->
  exists airportData aircraftData,
    (airportOf flight airports = Some airportData
     /\ In airportData airports /\ airportData !! 0 = flight !! 1)
    /\ (aircraftOf flight aeroplanes = Some aircraftData
        /\ In aircraftData aeroplanes /\ aircraftData !! 0 = flight !! 2)
    /\ gt (selectedDistance flight airportData) (maxRange aircraftData) = false
    /\ (forall c, gt (booked c flight) (capacity c aircraftData) = false)
    /\ gt (totalBooked flight) (totalCapacity aircraftData) = false
    /\ (forall g, fails g flight airports aeroplanes = false).
Proof.
  rewrite evaluate_unfold. unfold evaluateAtDistance.
  destruct (airportOf flight airports) as [airportData|] eqn:Hairport; [|discriminate].
  destruct (aircraftOf flight aeroplanes) as [aircraftData|] eqn:Haircraft;
    [|discriminate].
  destruct (aircraftData !! 1) as [costFigure|]; [|discriminate].
  gate_cases; try discriminate. intros _.
  exists airportData, aircraftData.
  assert (Hcabins : forall c, gt (booked c flight) (capacity c aircraftData) = false)
    by (intros []; assumption).
  destruct (find_some_in _ _ _ Hairport) as [Hin1 Hkey1].
  destruct (find_some_in _ _ _ Haircraft) as [Hin2 Hkey2].
  apply strictEq_true in Hkey1. apply strictEq_true in Hkey2.
  repeat split; try assumption.
  intros []; cbn [fails]; rewrite ?Hairport, ?Haircraft; auto.
Qed.

Lemma C4_witness :
  exists airportData aircraftData,
    (airportOf (nth 0 TestData.validFlightData []) TestData.airportsData = Some airportData
     /\ In airportData TestData.airportsData
     /\ airportData !! 0 = Some "JFK")
    /\ (aircraftOf (nth 0 TestData.validFlightData []) TestData.aeroplanesData
        = Some aircraftData
        /\ In aircraftData TestData.aeroplanesData
        /\ aircraftData !! 0 = Some "Large narrow body")
    /\ gt (selectedDistance (nth 0 TestData.validFlightData []) airportData)
          (maxRange aircraftData) = false
    /\ (forall c, gt (booked c (nth 0 TestData.validFlightData []))
                     (capacity c aircraftData) = false)
    /\ gt (totalBooked (nth 0 TestData.validFlightData [])) (totalCapacity aircraftData)
       = false
    /\ (forall g, fails g (nth 0 TestData.validFlightData [])
                    TestData.airportsData TestData.aeroplanesData = false).
Proof.
  refine (C4_result_passed_all_gates
            (nth 0 TestData.validFlightData []) TestData.airportsData
            TestData.aeroplanesData
            {| flightDetails := nth 0 TestData.validFlightData [];
               income := "75636.00"; cost := "61716.48"; profit := "13919.52" |} _).
  vm_compute. reflexivity.
Defined.

(** *** Income, cost and profit *)

(** C5. On success the profit is the income minus the cost, both taken
    before any rounding; each of the three figures is formatted to two
    decimals on its own, in the returned object only. *)
Theorem C5_profit_is_income_minus_cost
  (flight : row) (airports aeroplanes : table) (r : result) :
  validateAndCalculateProfit flight airports aeroplanes = inl r ->
  exists airportData aircraftData costFigure,
    airportOf flight airports = Some airportData
    /\ aircraftOf flight aeroplanes = Some aircraftData
    /\ aircraftData !! 1 = Some costFigure
    /\ income r = toFixed 2 (totalIncome flight)
    /\ cost r = toFixed 2 (totalCost flight airportData costFigure)
    /\ profit r
       = toFixed 2 (totalIncome flight - totalCost flight airportData costFigure)%float.
Proof.
  rewrite evaluate_unfold. unfold evaluateAtDistance.
  destruct (airportOf flight airports) as [airportData|]; [|discriminate].
  destruct (aircraftOf flight aeroplanes) as [aircraftData|]; [|discriminate].
  destruct (aircraftData !! 1) as [costFigure|] eqn:Hcost; [|discriminate].
  gate_cases; try discriminate. intros [= <-].
  exists airportData, aircraftData, costFigure. repeat split. exact Hcost.
Qed.

Lemma C5_witness :
  exists airportData aircraftData costFigure,
    airportOf (nth 1 TestData.validFlightData []) TestData.airportsData = Some airportData
    /\ aircraftOf (nth 1 TestData.validFlightData []) TestData.aeroplanesData
       = Some aircraftData
    /\ aircraftData !! 1 = Some costFigure
    /\ "21600.00" = toFixed 2 (totalIncome (nth 1 TestData.validFlightData []))
    /\ "3328.00"
       = toFixed 2 (totalCost (nth 1 TestData.validFlightData []) airportData costFigure)
    /\ "18272.00"
       = toFixed 2 (totalIncome (nth 1 TestData.validFlightData [])
                    - totalCost (nth 1 TestData.validFlightData [])
                                airportData costFigure)%float.
Proof.
  refine (C5_profit_is_income_minus_cost
            (nth 1 TestData.validFlightData []) TestData.airportsData
            TestData.aeroplanesData
            {| flightDetails := nth 1 TestData.validFlightData [];
               income := "21600.00"; cost := "3328.00"; profit := "18272.00" |} _).
  vm_compute. reflexivity.
Defined.

(** *** The origin *)

(** The evaluator past the airport lookup reads the request from its second
    field on, and echoes it. *)
Lemma evaluateAtDistance_origin (d : number) (flight : row) (o : string)
  (aeroplanes : table) :
  figures (evaluateAtDistance d (o :: tl flight) aeroplanes)
  = figures (evaluateAtDistance d flight aeroplanes).
Proof.
  assert (Hsame : forall i, (o :: tl flight) !! S i = flight !! S i)
    by (intros i; destruct flight; [destruct i|]; reflexivity).
  unfold evaluateAtDistance, aircraftOf, totalIncome, totalBooked, booked, bookedText,
    price.
  cbn [column Nat.add]. rewrite !Hsame.
  destruct (find (fun row => strictEq (row !! 0) (flight !! 2)) aeroplanes)
    as [aircraftData|]; [|reflexivity].
  destruct (aircraftData !! 1); [|reflexivity].
  gate_cases; reflexivity.
Qed.

Lemma airportOf_origin (flight : row) (o : string) (airports : table) :
  airportOf (o :: tl flight) airports = airportOf flight airports.
Proof.
  unfold airportOf. now destruct flight.
Qed.

(** C8. Once the destination is found, the distance the evaluator uses is
    the third field of the airport row (index 2) when the origin is `MAN`
    and the fourth (index 3) for any other origin; the origin has no other
    effect: with any origin [o] put in place of the request's, the figures
    or the error are those of the request itself at the distance [o]
    selects. *)
Theorem C8_distance_by_origin
  (flight : row) (airports aeroplanes : table) (airportData : row) :
  airportOf flight airports = Some airportData ->
  validateAndCalculateProfit flight airports aeroplanes
  = evaluateAtDistance
      (parseFloat (airportData !! (if strictEq (flight !! 0) (Some "MAN")
                                   then 2 else 3)%nat))
      flight aeroplanes
  /\ forall o : string,
      figures (validateAndCalculateProfit (o :: tl flight) airports aeroplanes)
      = figures (evaluateAtDistance
                   (parseFloat (airportData !! (if String.eqb o "MAN" then 2 else 3)%nat))
                   flight aeroplanes).
Proof.
  intros Hairport. split.
  - rewrite evaluate_unfold, Hairport. reflexivity.
  - intros o. rewrite evaluate_unfold, airportOf_origin, Hairport.
    apply evaluateAtDistance_origin.
Qed.

Lemma C8_witness :
  validateAndCalculateProfit (nth 1 TestData.validFlightData [])
    TestData.airportsData TestData.aeroplanesData
  = evaluateAtDistance 325%float (nth 1 TestData.validFlightData [])
      TestData.aeroplanesData
  /\ forall o : string,
      figures (validateAndCalculateProfit (o :: tl (nth 1 TestData.validFlightData []))
                 TestData.airportsData TestData.aeroplanesData)
      = figures (evaluateAtDistance
                   (parseFloat (["ORY"; "Paris-Orly"; "610"; "325"]
                                  !! (if String.eqb o "MAN" then 2 else 3)%nat))
                   (nth 1 TestData.validFlightData []) TestData.aeroplanesData).
Proof.
  exact (C8_distance_by_origin (nth 1 TestData.validFlightData [])
           TestData.airportsData TestData.aeroplanesData
           ["ORY"; "Paris-Orly"; "610"; "325"] eq_refl).
Defined.

(** *** Duplicate keys *)

Lemma find_app_some {A : Type} (p : A -> bool) (xs ys : list A) (x : A) :
  find p xs = Some x -> find p (xs ++ ys)%list = Some x.
Proof.
  unfold find. induction xs as [|a xs IH]; simpl; [discriminate|].
  destruct (p a); auto.
Qed.

Lemma find_first {A : Type} (p : A -> bool) (xs : list A) (x : A) :
  find p xs = Some x -> find p [x] = Some x.
Proof.
  intros H. destruct (find_some_in p xs x H) as [_ Hp].
  unfold find. simpl. now rewrite Hp.
Qed.

Lemma airportOf_app (flight : row) (airports more : table) (airportData : row) :
  airportOf flight airports = Some airportData ->
  airportOf flight (airports ++ more)%list = Some airportData.
Proof. apply find_app_some. Qed.

Lemma aircraftOf_app (flight : row) (aeroplanes more : table) (aircraftData : row) :
  aircraftOf flight aeroplanes = Some aircraftData ->
  aircraftOf flight (aeroplanes ++ more)%list = Some aircraftData.
Proof. apply find_app_some. Qed.

Lemma airportOf_first (flight : row) (airports : table) (airportData : row) :
  airportOf flight airports = Some airportData ->
  airportOf flight [airportData] = Some airportData.
Proof. apply find_first. Qed.

Lemma aircraftOf_first (flight : row) (aeroplanes : table) (aircraftData : row) :
  aircraftOf flight aeroplanes = Some aircraftData ->
  aircraftOf flight [aircraftData] = Some aircraftData.
Proof. apply find_first. Qed.

(** C9. The evaluator works from the first row whose key matches: rows
    added after a table that already has a match never change the outcome,
    and the outcome is the one the two first matching rows give alone. *)
Theorem C9_first_matching_row_decides
  (flight : row) (airports aeroplanes moreAirports moreAeroplanes : table) :
  (airportOf flight airports <> None ->
   validateAndCalculateProfit flight (airports ++ moreAirports)%list aeroplanes
   = validateAndCalculateProfit flight airports aeroplanes)
  /\ (aircraftOf flight aeroplanes <> None ->
      validateAndCalculateProfit flight airports (aeroplanes ++ moreAeroplanes)%list
      = validateAndCalculateProfit flight airports aeroplanes)
  /\ (forall airportData aircraftData,
        airportOf flight airports = Some airportData ->
        aircraftOf flight aeroplanes = Some aircraftData ->
        validateAndCalculateProfit flight airports aeroplanes
        = validateAndCalculateProfit flight [airportData] [aircraftData]).
Proof.
  repeat split.
  - intros Hfound. rewrite !evaluate_unfold.
    destruct (airportOf flight airports) as [airportData|] eqn:H; [|contradiction].
    now rewrite (airportOf_app _ _ moreAirports _ H).
  - intros Hfound. rewrite !evaluate_unfold. unfold evaluateAtDistance.
    destruct (aircraftOf flight aeroplanes) as [aircraftData|] eqn:H; [|contradiction].
    now rewrite (aircraftOf_app _ _ moreAeroplanes _ H).
  - intros airportData aircraftData Ha Hp. rewrite !evaluate_unfold.
    unfold evaluateAtDistance.
    rewrite Ha, Hp, (airportOf_first _ _ _ Ha), (aircraftOf_first _ _ _ Hp). reflexivity.
Qed.

(** A second `JFK` row, with other distances, appended to the airport table
    of the tests. *)
Lemma C9_witness :
  validateAndCalculateProfit (nth 0 TestData.validFlightData [])
    (TestData.airportsData ++ [["JFK"; "Duplicate"; "1"; "2"]])%list
    TestData.aeroplanesData
  = validateAndCalculateProfit (nth 0 TestData.validFlightData [])
      TestData.airportsData TestData.aeroplanesData.
Proof.
  apply (proj1 (C9_first_matching_row_decides
                  (nth 0 TestData.validFlightData []) TestData.airportsData
                  TestData.aeroplanesData [["JFK"; "Duplicate"; "1"; "2"]] [])).
  vm_compute. discriminate.
Defined.

(** *** The batch *)

Lemma choose_app {A B : Type} (f : A -> option B) (xs ys : list A) :
  choose f (xs ++ ys)%list = (choose f xs ++ choose f ys)%list.
Proof.
  induction xs as [|x xs IH]; simpl; [reflexivity|].
  destruct (f x); simpl; now rewrite IH.
Qed.

Lemma processFlights_from (airports aeroplanes : table) (flights : list row)
  (acc : report) :
  fold_left (processFlight airports aeroplanes) flights acc
  = {| results := (results acc ++ choose (successOf airports aeroplanes) flights)%list;
       errorMessages :=
         (errorMessages acc ++ choose (failureOf airports aeroplanes) flights)%list |}.
Proof.
  revert acc. induction flights as [|flight flights IH]; intros acc; simpl.
  - rewrite !app_nil_r. now destruct acc.
  - rewrite IH. unfold processFlight, successOf, failureOf.
    destruct (validateAndCalculateProfit flight airports aeroplanes); simpl;
      now rewrite <- ?app_assoc.
Qed.

(** C3. The batch evaluates each request on its own: the successes are the
    results of the requests that evaluate without error, the failures one
    message per failing request, made of that request and its reason, both in
    the order of the input; a failing request adds nothing to the successes,
    and what a batch yields for a request does not depend on the requests
    before it. *)
Theorem C3_batch_partitions_in_order (flights more : list row) (airports aeroplanes : table) :
  results (processFlights flights airports aeroplanes)
  = choose (successOf airports aeroplanes) flights
  /\ errorMessages (processFlights flights airports aeroplanes)
     = choose (failureOf airports aeroplanes) flights
  /\ (List.length (results (processFlights flights airports aeroplanes))
      + List.length (errorMessages (processFlights flights airports aeroplanes))
      = List.length flights)%nat
  /\ results (processFlights (flights ++ more)%list airports aeroplanes)
     = (results (processFlights flights airports aeroplanes)
        ++ results (processFlights more airports aeroplanes))%list
  /\ errorMessages (processFlights (flights ++ more)%list airports aeroplanes)
     = (errorMessages (processFlights flights airports aeroplanes)
        ++ errorMessages (processFlights more airports aeroplanes))%list.
Proof.
  unfold processFlights. rewrite !processFlights_from. cbn [results errorMessages app].
  repeat split; try apply choose_app.
  induction flights as [|flight flights IH]; [reflexivity|].
  cbn [choose]. unfold successOf at 1, failureOf at 1.
  destruct (validateAndCalculateProfit flight airports aeroplanes); simpl in *; lia.
Qed.

(** The batch of the specification: the first and third request fail, the
    second succeeds. *)
Lemma C3_example :
  processFlights
    [ nth 0 TestData.invalidFlightData []; nth 1 TestData.validFlightData [];
      nth 2 TestData.invalidFlightData [] ]
    TestData.airportsData TestData.aeroplanesData
  = {| results :=
         [ {| flightDetails := nth 1 TestData.validFlightData [];
              income := "21600.00"; cost := "3328.00"; profit := "18272.00" |} ];
       errorMessages :=
         [ "Flight Data: MAN, JFK, Medium narrow body, 150, 12, 2, 399, 999, 1899 - Error: Medium narrow body doesn't have the range to fly to JFK";
           "Flight Data: LGW, INVALID, Medium narrow body, 120, 8, 0, 150, 450, 0 - Error: Invalid airport code: INVALID" ] |}.
Proof. vm_compute. reflexivity. Qed.

(** *** Overbooking one class *)

Lemma withBooked_lookup (c : cabin) (seats : string) (flight : row) (i : nat) :
  (column c <= List.length flight)%nat ->
  withBooked c seats flight !! i
  = if Nat.eqb i (column c) then Some seats else flight !! i.
Proof.
  intros Hlen. unfold withBooked.
  assert (Hfirst : List.length (firstn (column c) flight) = column c)
    by (apply firstn_length_le; exact Hlen).
  destruct (Nat.eqb_spec i (column c)) as [->|Hne].
  - rewrite nth_error_app2 by lia. rewrite Hfirst, Nat.sub_diag. reflexivity.
  - destruct (Nat.lt_ge_cases i (column c)) as [Hlt|Hge].
    + rewrite nth_error_app1 by lia. rewrite nth_error_firstn.
      apply Nat.ltb_lt in Hlt. now rewrite Hlt.
    + rewrite nth_error_app2 by lia. rewrite Hfirst.
      destruct (i - column c)%nat as [|k] eqn:Hk; [lia|].
      cbn [nth_error]. rewrite nth_error_skipn. f_equal. lia.
Qed.

(** Replacing the booked seats of a class leaves the lookups, the distance
    and the other classes as they were. *)
Lemma withBooked_frame (c : cabin) (seats : string) (flight : row)
  (airports aeroplanes : table) :
  (column c <= List.length flight)%nat ->
  airportOf (withBooked c seats flight) airports = airportOf flight airports
  /\ aircraftOf (withBooked c seats flight) aeroplanes = aircraftOf flight aeroplanes
  /\ (forall airportData,
        selectedDistance (withBooked c seats flight) airportData
        = selectedDistance flight airportData)
  /\ bookedText c (withBooked c seats flight) = Some seats
  /\ (forall c', c' <> c ->
        bookedText c' (withBooked c seats flight) = bookedText c' flight).
Proof.
  intros Hlen.
  assert (Hlow : forall i, (i < 3)%nat -> withBooked c seats flight !! i = flight !! i).
  { intros i Hi. rewrite withBooked_lookup by exact Hlen.
    destruct (Nat.eqb_spec i (column c)) as [->|]; [destruct c; simpl in Hi; lia|].
    reflexivity. }
  unfold airportOf, aircraftOf, selectedDistance, bookedText.
  rewrite (Hlow 0%nat), (Hlow 1%nat), (Hlow 2%nat) by lia.
  repeat split.
  - rewrite withBooked_lookup by exact Hlen. now rewrite Nat.eqb_refl.
  - intros c' Hne. rewrite withBooked_lookup by exact Hlen.
    destruct (Nat.eqb_spec (column c') (column c)) as [Heq|]; [|reflexivity].
    destruct c, c'; simpl in Heq; congruence || lia.
Qed.

(** A request that reaches the gate of class [c] and fails it is reported
    that class's error. *)
Lemma class_gate_reported (c : cabin) (flight : row) (airports aeroplanes : table)
  (airportData aircraftData : row) :
  airportOf flight airports = Some airportData ->
  aircraftOf flight aeroplanes = Some aircraftData ->
  gt (selectedDistance flight airportData) (maxRange aircraftData) = false ->
  gt (totalBooked flight) (totalCapacity aircraftData) = false ->
  (forall c', (column c' < column c)%nat ->
              gt (booked c' flight) (capacity c' aircraftData) = false) ->
  gt (booked c flight) (capacity c aircraftData) = true ->
  validateAndCalculateProfit flight airports aeroplanes
  = inr (overbooked c (bookedText c flight) (capacity c aircraftData)).
Proof.
  intros Hairport Haircraft Hrange Htotal Hbefore Hover.
  rewrite evaluate_unfold, Hairport. unfold evaluateAtDistance.
  rewrite Haircraft.
  destruct (aircraftData !! 1) as [costFigure|] eqn:Hcost;
    [|now destruct (capacity_exceeded_cost_figure c _ _ Hover)].
  rewrite Hrange, Htotal.
  destruct c; cbn [overbooked bookedText column].
  - now rewrite Hover.
  - rewrite (Hbefore Economy) by (simpl; lia). now rewrite Hover.
  - rewrite (Hbefore Economy), (Hbefore Business) by (simpl; lia). now rewrite Hover.
Qed.

(** Past the lookups and the range check, with the classes checked before
    [c] within their capacities and the total within the total capacity, a
    count put in place of the booked seats of [c] that is greater than the
    capacity of [c] is reported as the overbooking of [c]. *)
Lemma class_overbooking_after_gates
  (c : cabin) (seats : string) (flight : row) (airports aeroplanes : table)
  (airportData aircraftData : row) :
  (column c <= List.length flight)%nat ->
  airportOf flight airports = Some airportData ->
  aircraftOf flight aeroplanes = Some aircraftData ->
  gt (selectedDistance flight airportData) (maxRange aircraftData) = false ->
  (forall c', (column c' < column c)%nat ->
              gt (booked c' flight) (capacity c' aircraftData) = false) ->
  gt (parseInt (Some seats)) (capacity c aircraftData) = true ->
  gt (totalBooked (withBooked c seats flight)) (totalCapacity aircraftData) = false ->
  validateAndCalculateProfit (withBooked c seats flight) airports aeroplanes
  = inr (overbooked c (Some seats) (capacity c aircraftData)).
Proof.
  intros Hlen Hairport Haircraft Hrange Hbefore Hover Htotal.
  destruct (withBooked_frame c seats flight airports aeroplanes Hlen)
    as (Ha & Hp & Hd & Hc & Hothers).
  rewrite <- Hc.
  apply class_gate_reported with (airportData := airportData).
  - now rewrite Ha.
  - now rewrite Hp.
  - now rewrite Hd.
  - exact Htotal.
  - intros c' Hlt. unfold booked. rewrite Hothers by (intros ->; lia).
    now apply Hbefore.
  - unfold booked. now rewrite Hc.
Qed.

(** A request that evaluates has its two rows found, its distance within
    range and every class within its capacity. *)
Lemma success_passes_gates
  (flight : row) (airports aeroplanes : table) (r : result) :
  validateAndCalculateProfit flight airports aeroplanes = inl r ->
  exists airportData aircraftData,
    airportOf flight airports = Some airportData
    /\ aircraftOf flight aeroplanes = Some aircraftData
    /\ gt (selectedDistance flight airportData) (maxRange aircraftData) = false
    /\ forall c, gt (booked c flight) (capacity c aircraftData) = false.
Proof.
  rewrite evaluate_unfold. unfold evaluateAtDistance.
  destruct (airportOf flight airports) as [airportData|]; [|discriminate].
  destruct (aircraftOf flight aeroplanes) as [aircraftData|]; [|discriminate].
  destruct (aircraftData !! 1); [|discriminate].
  gate_cases; try discriminate. intros _.
  exists airportData, aircraftData.
  split; [reflexivity|]. split; [reflexivity|]. split; [assumption|].
  intros []; assumption.
Qed.

(** C6. Take a request that evaluates, and put in place of the booked seats
    of one class (the request has the fields before it) a count greater than
    that class's capacity, the other two classes left as they are.  If the
    total booked is still within the total capacity, evaluation fails with
    this class's overbooking error, and so with no other. *)
Theorem C6_class_overbooking_reported
  (c : cabin) (seats : string) (flight : row) (airports aeroplanes : table)
  (r : result) (aircraftData : row) :
  validateAndCalculateProfit flight airports aeroplanes = inl r ->
  aircraftOf flight aeroplanes = Some aircraftData ->
  (column c <= List.length flight)%nat ->
  gt (parseInt (Some seats)) (capacity c aircraftData) = true ->
  gt (totalBooked (withBooked c seats flight)) (totalCapacity aircraftData) = false ->
  validateAndCalculateProfit (withBooked c seats flight) airports aeroplanes
  = inr (overbooked c (Some seats) (capacity c aircraftData)).
Proof.
  intros Hsuccess Haircraft Hlen Hover Htotal.
  destruct (success_passes_gates flight airports aeroplanes r Hsuccess)
    as (airportData & aircraftData' & Ha & Hp & Hrange & Hclasses).
  rewrite Haircraft in Hp. injection Hp as <-.
  apply class_overbooking_after_gates with (airportData := airportData);
    try assumption.
  intros c' _. apply Hclasses.
Qed.

(** The first valid request of the tests, which evaluates, with 21 business
    seats on an aircraft with 20: the total, 173, is within the 204 seats. *)
Lemma C6_witness :
  validateAndCalculateProfit
    ["MAN"; "JFK"; "Large narrow body"; "150"; "21"; "2"; "399"; "999"; "1899"]
    TestData.airportsData TestData.aeroplanesData
  = inr (TooManyBusinessSeats (Some "21") 20%float).
Proof.
  exact (C6_class_overbooking_reported Business "21"
           (nth 0 TestData.validFlightData []) TestData.airportsData
           TestData.aeroplanesData
           {| flightDetails := nth 0 TestData.validFlightData [];
              income := "75636.00"; cost := "61716.48"; profit := "13919.52" |}
           ["Large narrow body"; "£7"; "5600"; "180"; "20"; "4"]
           eq_refl eq_refl ltac:(vm_compute; lia) eq_refl eq_refl).
Defined.

(** *** Strings: the round trip of readCsv *)

Lemma append_assoc (a b c : string) : (a ++ b) ++ c = a ++ (b ++ c).
Proof. induction a as [|x a IH]; simpl; [reflexivity | now rewrite IH]. Qed.

Lemma append_empty (a : string) : a ++ "" = a.
Proof. induction a as [|x a IH]; simpl; [reflexivity | now rewrite IH]. Qed.

Lemma length_append (a b : string) :
  String.length (a ++ b) = (String.length a + String.length b)%nat.
Proof. induction a as [|x a IH]; simpl; [reflexivity | now rewrite IH]. Qed.

Lemma occurs_append (c : ascii) (a b : string) :
  occurs c (a ++ b) = occurs c a || occurs c b.
Proof.
  induction a as [|x a IH]; simpl; [reflexivity|]. now rewrite IH, orb_assoc.
Qed.

Lemma rev_string_append (a b : string) :
  rev_string (a ++ b) = rev_string b ++ rev_string a.
Proof.
  induction a as [|x a IH]; simpl.
  - now rewrite append_empty.
  - now rewrite IH, append_assoc.
Qed.

Lemma rev_string_involutive (s : string) : rev_string (rev_string s) = s.
Proof.
  induction s as [|x s IH]; simpl; [reflexivity|].
  rewrite rev_string_append, IH. reflexivity.
Qed.

Lemma rev_string_length (s : string) : String.length (rev_string s) = String.length s.
Proof.
  induction s as [|x s IH]; simpl; [reflexivity|].
  rewrite length_append, IH. simpl. lia.
Qed.

Lemma occurs_rev_string (c : ascii) (s : string) : occurs c (rev_string s) = occurs c s.
Proof.
  induction s as [|x s IH]; simpl; [reflexivity|].
  rewrite occurs_append, IH. simpl. rewrite orb_false_r. apply orb_comm.
Qed.

(** *** Stripping prefixes *)

Lemma stripPrefix_some (p s r : string) : stripPrefix p s = Some r -> s = p ++ r.
Proof.
  revert s. induction p as [|a p IH]; intros [|b s]; simpl; try congruence.
  destruct (Ascii.eqb_spec a b) as [->|]; [|discriminate].
  intros H. now rewrite (IH _ H).
Qed.

(** A prefix without the byte [h] is found, or not, in [x ++ String h c] as
    it is in [x]. *)
Lemma stripPrefix_stop (h : ascii) (c p x : string) :
  occurs h p = false ->
  stripPrefix p (x ++ String h c) = option_map (fun r => r ++ String h c) (stripPrefix p x).
Proof.
  revert x. induction p as [|a p IH]; intros x Hp; [reflexivity|].
  simpl in Hp. apply orb_false_elim in Hp as [Ha Hp].
  destruct x as [|b x]; simpl.
  - now rewrite Ha.
  - destruct (Ascii.eqb a b); [now apply IH | reflexivity].
Qed.

Lemma stripAny_stop (h : ascii) (c : string) (ps : list string) (x : string) :
  without h ps ->
  stripAny ps (x ++ String h c) = option_map (fun r => r ++ String h c) (stripAny ps x).
Proof.
  induction 1 as [|p ps Hp _ IH]; [reflexivity|].
  simpl. rewrite (stripPrefix_stop h c p x Hp).
  destruct (stripPrefix p x); [reflexivity | exact IH].
Qed.

Lemma stripAny_some (ps : list string) (s r : string) :
  stripAny ps s = Some r -> exists p, In p ps /\ s = p ++ r.
Proof.
  induction ps as [|q ps IH]; simpl; [discriminate|].
  destruct (stripPrefix q s) as [r'|] eqn:Hq.
  - intros [= <-]. exists q. split; [now left | now apply stripPrefix_some].
  - intros H. destruct (IH H) as (p & Hin & Hs). exists p. split; [now right | exact Hs].
Qed.

Lemma stripAny_shorter (ps : list string) (s r : string) :
  nonEmpty ps -> stripAny ps s = Some r -> (String.length r < String.length s)%nat.
Proof.
  intros Hne H. destruct (stripAny_some ps s r H) as (p & Hin & ->).
  unfold nonEmpty in Hne. rewrite Forall_forall in Hne. specialize (Hne p Hin).
  rewrite length_append. destruct p; [congruence | simpl; lia].
Qed.

(** What [stripAll] removes is made of the sequences. *)
Lemma stripAll_removed (ps : list string) (n : nat) (s : string) :
  exists p, s = p ++ stripAll ps n s /\ forall h, without h ps -> occurs h p = false.
Proof.
  revert s. induction n as [|n IH]; intros s; simpl.
  - exists ""%string. now split.
  - destruct (stripAny ps s) as [r|] eqn:Hr.
    + destruct (stripAny_some ps s r Hr) as (q & Hin & ->).
      destruct (IH r) as (p & Hp & Hfree).
      exists (q ++ p). split.
      * rewrite append_assoc. now rewrite <- Hp.
      * intros h Hh. rewrite occurs_append, (Hfree h Hh), orb_false_r.
        unfold without in Hh. rewrite Forall_forall in Hh. now apply Hh.
    + exists ""%string. now split.
Qed.

(** With fuel for the whole string, nothing is left to strip. *)
Lemma stripAll_done (ps : list string) (n : nat) (s : string) :
  nonEmpty ps -> (String.length s <= n)%nat -> stripAny ps (stripAll ps n s) = None.
Proof.
  intros Hne. revert s. induction n as [|n IH]; intros s Hlen; simpl.
  - destruct s; [|simpl in Hlen; lia].
    clear Hlen. induction Hne as [|p ps Hp _ IHps]; [reflexivity|].
    simpl. destruct p; [congruence|]. exact IHps.
  - destruct (stripAny ps s) as [r|] eqn:Hr; [|exact Hr].
    apply IH. pose proof (stripAny_shorter ps s r Hne Hr). lia.
Qed.

Lemma stripAll_fixed (ps : list string) (n : nat) (s : string) :
  stripAny ps s = None -> stripAll ps n s = s.
Proof. intros H. destruct n; simpl; [reflexivity | now rewrite H]. Qed.

Lemma stripAll_fuel (ps : list string) (n m : nat) (s : string) :
  nonEmpty ps -> (String.length s <= n)%nat -> (String.length s <= m)%nat ->
  stripAll ps n s = stripAll ps m s.
Proof.
  intros Hne. revert m s. induction n as [|n IH]; intros m s Hn Hm.
  - destruct s; [|simpl in Hn; lia]. simpl.
    symmetry. apply stripAll_fixed.
    apply (stripAll_done ps 0 ""%string Hne). simpl. lia.
  - destruct m as [|m].
    + destruct s; [|simpl in Hm; lia].
      apply stripAll_fixed. apply (stripAll_done ps 0 ""%string Hne). simpl. lia.
    + simpl. destruct (stripAny ps s) as [r|] eqn:Hr; [|reflexivity].
      pose proof (stripAny_shorter ps s r Hne Hr). apply IH; lia.
Qed.

Lemma stripAll_stop (h : ascii) (c : string) (ps : list string) (n : nat) (x : string) :
  without h ps -> nonEmpty ps -> (String.length x <= n)%nat ->
  stripAll ps n (x ++ String h c) = stripAll ps n x ++ String h c.
Proof.
  intros Hh Hne. revert x. induction n as [|n IH]; intros x Hlen.
  - destruct x; [reflexivity | simpl in Hlen; lia].
  - simpl. rewrite (stripAny_stop h c ps x Hh).
    destruct (stripAny ps x) as [r|] eqn:Hr; simpl; [|reflexivity].
    apply IH. pose proof (stripAny_shorter ps x r Hne Hr). lia.
Qed.

(** *** Trimming *)

Lemma without_forallb (h : ascii) (ps : list string) :
  forallb (fun p => negb (occurs h p)) ps = true -> without h ps.
Proof.
  intros H. apply Forall_forall. intros p Hin.
  rewrite forallb_forall in H. specialize (H p Hin). now apply negb_true_iff in H.
Qed.

Lemma without_rev (h : ascii) (ps : list string) :
  without h ps -> without h (map rev_string ps).
Proof.
  intros H. apply Forall_map. eapply Forall_impl; [|exact H].
  intros p Hp. cbn beta. now rewrite occurs_rev_string.
Qed.

Lemma whiteSpace_nonEmpty : nonEmpty whiteSpace.
Proof. unfold nonEmpty, whiteSpace. repeat constructor; discriminate. Qed.

Lemma whiteSpace_rev_nonEmpty : nonEmpty (map rev_string whiteSpace).
Proof. unfold nonEmpty, whiteSpace. simpl. repeat constructor; discriminate. Qed.

Lemma whiteSpace_without_hash : without "#" whiteSpace.
Proof. apply without_forallb. reflexivity. Qed.

Lemma trimStart_stop (h : ascii) (x c : string) :
  without h whiteSpace ->
  trimStart (x ++ String h c) = trimStart x ++ String h c.
Proof.
  intros Hh. unfold trimStart.
  rewrite stripAll_stop by
    (try assumption; try apply whiteSpace_nonEmpty; rewrite length_append; lia).
  f_equal. apply stripAll_fuel; [apply whiteSpace_nonEmpty | | lia].
  rewrite length_append. lia.
Qed.

Lemma trimEnd_stop (h : ascii) (y c : string) :
  without h whiteSpace ->
  trimEnd (y ++ String h c) = y ++ String h (trimEnd c).
Proof.
  intros Hh. unfold trimEnd.
  rewrite rev_string_append. cbn [rev_string]. rewrite append_assoc. cbn [append].
  rewrite stripAll_stop.
  - rewrite rev_string_append. cbn [rev_string].
    rewrite rev_string_involutive, append_assoc. cbn [append].
    do 3 f_equal. apply stripAll_fuel.
    + apply whiteSpace_rev_nonEmpty.
    + rewrite rev_string_length, length_append. simpl. lia.
    + rewrite rev_string_length. lia.
  - now apply without_rev.
  - apply whiteSpace_rev_nonEmpty.
  - rewrite rev_string_length, length_append. simpl. lia.
Qed.

Lemma trimStart_idempotent (s : string) : trimStart (trimStart s) = trimStart s.
Proof.
  unfold trimStart at 1. apply stripAll_fixed.
  unfold trimStart. apply stripAll_done; [apply whiteSpace_nonEmpty | lia].
Qed.

(** What [trim] removes at either end holds only bytes of white space. *)
Lemma trimStart_removed (s : string) :
  exists p, s = p ++ trimStart s
            /\ forall h, without h whiteSpace -> occurs h p = false.
Proof. apply stripAll_removed. Qed.

Lemma trimEnd_removed (s : string) :
  exists q, s = trimEnd s ++ q
            /\ forall h, without h whiteSpace -> occurs h q = false.
Proof.
  unfold trimEnd.
  destruct (stripAll_removed (map rev_string whiteSpace) (String.length s) (rev_string s))
    as (p & Hp & Hfree).
  exists (rev_string p). split.
  - rewrite <- rev_string_append, <- Hp. now rewrite rev_string_involutive.
  - intros h Hh. rewrite occurs_rev_string. now apply Hfree, without_rev.
Qed.

Lemma trim_removed (s : string) :
  exists p q, s = p ++ trim s ++ q
              /\ forall h, without h whiteSpace ->
                           occurs h p = false /\ occurs h q = false.
Proof.
  destruct (trimStart_removed s) as (p & Hp & Hpfree).
  destruct (trimEnd_removed (trimStart s)) as (q & Hq & Hqfree).
  exists p, q. split.
  - unfold trim. now rewrite <- Hq.
  - intros h Hh. split; [now apply Hpfree | now apply Hqfree].
Qed.

Lemma trim_occurs (h : ascii) (s : string) : occurs h s = false -> occurs h (trim s) = false.
Proof.
  destruct (trim_removed s) as (p & q & Hs & _). intros H.
  rewrite Hs, !occurs_append in H.
  apply orb_false_elim in H as [_ H]. now apply orb_false_elim in H as [H _].
Qed.

Lemma trimStart_occurs (h : ascii) (s : string) :
  occurs h s = false -> occurs h (trimStart s) = false.
Proof.
  destruct (trimStart_removed s) as (p & Hs & _). intros H.
  rewrite Hs, occurs_append in H. now apply orb_false_elim in H as [_ H].
Qed.

(** *** Searching and splitting on one byte *)

Lemma includes_byte (h : ascii) (s : string) : includes (String h "") s = occurs h s.
Proof.
  induction s as [|a s IH]; [reflexivity|].
  cbn [includes occurs]. rewrite IH. f_equal.
  unfold startsWith. simpl. rewrite Ascii.eqb_sym. now destruct (Ascii.eqb a h).
Qed.

Lemma splitOn_byte (d c : ascii) (s : string) :
  splitOn (String d "") 0 (String c s)
  = if Ascii.eqb d c then EmptyString :: splitOn (String d "") 0 s
    else match splitOn (String d "") 0 s with
         | h :: t => String c h :: t
         | [] => [String c EmptyString]
         end.
Proof.
  cbn [splitOn]. unfold startsWith. simpl. now destruct (Ascii.eqb d c).
Qed.

Lemma splitOn_absent (d : ascii) (s : string) :
  occurs d s = false -> splitOn (String d "") 0 s = [s].
Proof.
  induction s as [|c s IH]; [reflexivity|].
  intros H. simpl in H. apply orb_false_elim in H as [Hc Hs].
  rewrite splitOn_byte, Ascii.eqb_sym, Hc, (IH Hs). reflexivity.
Qed.

Lemma splitOn_first (d : ascii) (x y : string) :
  occurs d x = false ->
  splitOn (String d "") 0 (x ++ String d y) = x :: splitOn (String d "") 0 y.
Proof.
  induction x as [|c x IH]; intros H.
  - cbn [append]. now rewrite splitOn_byte, Ascii.eqb_refl.
  - simpl in H. apply orb_false_elim in H as [Hc Hx].
    cbn [append]. rewrite splitOn_byte, Ascii.eqb_sym, Hc, (IH Hx). reflexivity.
Qed.

Lemma splitOn_nonempty (sep : string) (k : nat) (s : string) : splitOn sep k s <> [].
Proof.
  revert k. induction s as [|c s IH]; intros k; [discriminate|].
  destruct k as [|k]; cbn [splitOn]; [|apply IH].
  destruct (startsWith sep (String c s)); [discriminate|].
  now destruct (splitOn sep 0 s).
Qed.

Lemma splitOn_length_prefix (d : ascii) (p s : string) :
  occurs d p = false ->
  List.length (splitOn (String d "") 0 (p ++ s)) = List.length (splitOn (String d "") 0 s).
Proof.
  induction p as [|c p IH]; intros H; [reflexivity|].
  simpl in H. apply orb_false_elim in H as [Hc Hp].
  cbn [append]. rewrite splitOn_byte, Ascii.eqb_sym, Hc, <- (IH Hp).
  pose proof (splitOn_nonempty (String d "") 0 (p ++ s)).
  now destruct (splitOn (String d "") 0 (p ++ s)).
Qed.

Lemma splitOn_length_suffix (d : ascii) (s q : string) :
  occurs d q = false ->
  List.length (splitOn (String d "") 0 (s ++ q)) = List.length (splitOn (String d "") 0 s).
Proof.
  intros H. induction s as [|c s IH].
  - cbn [append]. now rewrite (splitOn_absent d q H).
  - cbn [append]. rewrite !splitOn_byte.
    destruct (Ascii.eqb d c); cbn [List.length]; [now rewrite IH|].
    pose proof (splitOn_nonempty (String d "") 0 (s ++ q)).
    pose proof (splitOn_nonempty (String d "") 0 s).
    destruct (splitOn (String d "") 0 (s ++ q)), (splitOn (String d "") 0 s);
      simpl in *; congruence.
Qed.

(** Joining fields that do not hold the delimiter and splitting the text
    gives the fields back. *)
Lemma occurs_join (h d : ascii) (fields : list string) :
  Ascii.eqb d h = false ->
  forallb (fun s => negb (occurs h s)) fields = true ->
  occurs h (join (String d "") fields) = false.
Proof.
  intros Hd. induction fields as [|x fields IH]; [reflexivity|].
  cbn [forallb]. intros H. apply andb_true_iff in H as [Hx Hrest].
  apply negb_true_iff in Hx. unfold join in *. cbn [String.concat].
  destruct fields as [|y fields]; [exact Hx|].
  rewrite occurs_append, Hx. cbn [append occurs orb]. rewrite Hd. now apply IH.
Qed.

Lemma split_join (d : ascii) (fields : list string) :
  fields <> [] ->
  forallb (fun s => negb (occurs d s)) fields = true ->
  split (String d "") (join (String d "") fields) = fields.
Proof.
  intros Hne H. unfold split, join.
  induction fields as [|x fields IH]; [congruence|]. clear Hne.
  cbn [forallb] in H. apply andb_true_iff in H as [Hx Hrest].
  apply negb_true_iff in Hx. cbn [String.concat].
  destruct fields as [|y fields]; [now apply splitOn_absent|].
  cbn [append]. rewrite (splitOn_first d x _ Hx). f_equal.
  apply IH; [discriminate | exact Hrest].
Qed.

(** *** readCsv on a generated file *)

Lemma trim_stop (h : ascii) (x c : string) :
  without h whiteSpace ->
  trim (x ++ String h c) = trimStart x ++ String h (trimEnd c).
Proof.
  intros Hh. unfold trim. now rewrite trimStart_stop, trimEnd_stop.
Qed.

(** A line made of a text without `#` and an optional comment is read as the
    text alone. *)
Lemma readRow_text (delimiter text : string) (comment : option string) :
  occurs "#" text = false ->
  readRow delimiter (text ++ commentSuffix comment)
  = match trim text with
    | EmptyString => None
    | String _ _ => Some (split delimiter (trim text))
    end.
Proof.
  intros Htext. unfold readRow. destruct comment as [c|]; cbn [commentSuffix].
  - rewrite (trim_stop "#" text c whiteSpace_without_hash).
    rewrite includes_byte, occurs_append. cbn [occurs]. rewrite Ascii.eqb_refl.
    cbn [orb]. rewrite orb_true_r.
    assert (Hhd : trim (hd "" (split "#" (trimStart text ++ String "#" (trimEnd c))))
                  = trim text).
    { unfold split.
      rewrite (splitOn_first "#" _ _ (trimStart_occurs "#" text Htext)).
      cbn [hd]. unfold trim. now rewrite trimStart_idempotent. }
    cbv zeta. rewrite !Hhd. reflexivity.
  - rewrite append_empty, includes_byte, (trim_occurs "#" text Htext). reflexivity.
Qed.

Lemma fold_left_choose (delimiter : string) (lines : list string) (data : table) :
  fold_left
    (fun data line =>
       match readRow delimiter line with
       | Some columns => (data ++ [columns])%list
       | None => data
       end) lines data
  = (data ++ choose (readRow delimiter) lines)%list.
Proof.
  revert data. induction lines as [|line lines IH]; intros data; simpl.
  - now rewrite app_nil_r.
  - rewrite IH. destruct (readRow delimiter line); [|reflexivity].
    now rewrite <- app_assoc.
Qed.

(** The content of a file is read line by line, the first line apart. *)
Lemma parseCsv_lines (delimiter header : string) (lines : list string) :
  occurs "010" header = false ->
  forallb (fun s => negb (occurs "010" s)) lines = true ->
  parseCsv (join (String "010" "") (header :: lines)) delimiter
  = choose (readRow delimiter) lines.
Proof.
  intros Hheader Hlines. unfold parseCsv.
  rewrite split_join; [|discriminate|].
  - cbn [tl]. apply fold_left_choose.
  - cbn [forallb]. now rewrite Hheader, Hlines.
Qed.

Lemma delimiterOk_without (delimiter : ascii) :
  delimiterOk delimiter = true ->
  without delimiter whiteSpace
  /\ Ascii.eqb delimiter "#" = false /\ Ascii.eqb delimiter "010" = false.
Proof.
  unfold delimiterOk. intros H. apply andb_true_iff in H as [Hws Hhash].
  apply negb_true_iff in Hhash. repeat split; [now apply without_forallb | exact Hhash|].
  unfold whiteSpace in Hws. cbn [forallb occurs] in Hws.
  apply andb_true_iff in Hws as [_ Hws]. apply andb_true_iff in Hws as [Hlf _].
  rewrite orb_false_r in Hlf. apply negb_true_iff in Hlf. now rewrite Ascii.eqb_sym.
Qed.

Lemma plainField_fields (delimiter : ascii) (fields : list string) :
  forallb (plainField delimiter) fields = true ->
  forallb (fun s => negb (occurs delimiter s)) fields = true
  /\ forallb (fun s => negb (occurs "#" s)) fields = true
  /\ forallb (fun s => negb (occurs "010" s)) fields = true.
Proof.
  induction fields as [|x fields IH]; [now repeat split|].
  cbn [forallb]. unfold plainField at 1. intros H.
  apply andb_true_iff in H as [Hx Hrest].
  apply andb_true_iff in Hx as [Hx H3]. apply andb_true_iff in Hx as [H1 H2].
  destruct (IH Hrest) as (I1 & I2 & I3).
  now rewrite H1, H2, H3, I1, I2, I3.
Qed.

Lemma occurs_commentSuffix (comment : option string) :
  commentOk comment = true -> occurs "010" (commentSuffix comment) = false.
Proof.
  destruct comment as [c|]; [|reflexivity].
  cbn [commentOk commentSuffix occurs]. intros H. now apply negb_true_iff in H.
Qed.

(** A well-formed line holds no line feed, and is read as its fields if it
    is a data row, and dropped if it is noise. *)
Lemma wellFormed_line (delimiter : ascii) (l : fileLine) :
  delimiterOk delimiter = true ->
  wellFormed delimiter l = true ->
  occurs "010" (renderLine delimiter l) = false
  /\ readRow (String delimiter "") (renderLine delimiter l)
     = match l with
       | DataRow fields _ =>
           Some (split (String delimiter "")
                       (trim (join (String delimiter "") fields)))
       | NoiseLine _ _ => None
       end.
Proof.
  intros Hd Hl. destruct (delimiterOk_without delimiter Hd) as (_ & Hhash & Hlf).
  destruct l as [fields comment | blank comment]; cbn [wellFormed renderLine] in *.
  - apply andb_true_iff in Hl as [Hl Hcomment].
    apply andb_true_iff in Hl as [Hl Hblank].
    apply andb_true_iff in Hl as [_ Hfields].
    destruct (plainField_fields delimiter fields Hfields) as (_ & F2 & F3).
    split.
    + rewrite occurs_append, (occurs_join _ _ _ Hlf F3).
      now apply occurs_commentSuffix.
    + rewrite readRow_text by (now apply occurs_join).
      apply negb_true_iff in Hblank.
      destruct (trim (join (String delimiter "") fields)); [discriminate | reflexivity].
  - apply andb_true_iff in Hl as [Hl Hcomment].
    apply andb_true_iff in Hl as [Hl Hnolf].
    apply andb_true_iff in Hl as [Hblank Hnohash].
    apply negb_true_iff in Hnolf. apply negb_true_iff in Hnohash.
    split.
    + rewrite occurs_append, Hnolf. now apply occurs_commentSuffix.
    + rewrite readRow_text by exact Hnohash.
      apply String.eqb_eq in Hblank. now rewrite Hblank.
Qed.

Lemma parseCsv_generated (delimiter : ascii) (header : string) (lines : list fileLine) :
  delimiterOk delimiter = true ->
  occurs "010" header = false ->
  forallb (wellFormed delimiter) lines = true ->
  parseCsv (renderFile delimiter header lines) (String delimiter "")
  = map (fun fields =>
           split (String delimiter "") (trim (join (String delimiter "") fields)))
        (dataRows lines).
Proof.
  intros Hd Hheader Hlines. unfold renderFile.
  rewrite parseCsv_lines; [|exact Hheader|].
  - induction lines as [|l lines IH]; [reflexivity|].
    cbn [forallb] in Hlines. apply andb_true_iff in Hlines as [Hl Hlines].
    cbn [map choose]. destruct (wellFormed_line delimiter l Hd Hl) as [_ ->].
    destruct l; cbn [dataRows map]; now rewrite IH.
  - induction lines as [|l lines IH]; [reflexivity|].
    cbn [forallb] in Hlines. apply andb_true_iff in Hlines as [Hl Hlines].
    cbn [map forallb]. destruct (wellFormed_line delimiter l Hd Hl) as [-> _].
    now apply IH.
Qed.

(** The columns read from a data row: as many as its fields, and the fields
    themselves when the row has no white space at either end. *)
Lemma columns_of_fields (delimiter : ascii) (fields : list string) :
  delimiterOk delimiter = true ->
  fields <> [] ->
  forallb (plainField delimiter) fields = true ->
  List.length (split (String delimiter "") (trim (join (String delimiter "") fields)))
  = List.length fields
  /\ (trim (join (String delimiter "") fields) = join (String delimiter "") fields ->
      split (String delimiter "") (trim (join (String delimiter "") fields)) = fields).
Proof.
  intros Hd Hne Hfields.
  destruct (delimiterOk_without delimiter Hd) as (Hws & _ & _).
  destruct (plainField_fields delimiter fields Hfields) as (F1 & _ & _).
  pose proof (split_join delimiter fields Hne F1) as Hsplit.
  split.
  - destruct (trim_removed (join (String delimiter "") fields)) as (p & q & Htext & Hfree).
    destruct (Hfree delimiter Hws) as [Hp Hq].
    rewrite <- Hsplit at 2. rewrite Htext at 2. unfold split.
    now rewrite splitOn_length_prefix, splitOn_length_suffix.
  - intros ->. exact Hsplit.
Qed.

Lemma dataRows_wellFormed (delimiter : ascii) (lines : list fileLine) :
  forallb (wellFormed delimiter) lines = true ->
  Forall (fun fields => fields <> [] /\ forallb (plainField delimiter) fields = true)
         (dataRows lines).
Proof.
  induction lines as [|l lines IH]; [constructor|].
  cbn [forallb]. intros H. apply andb_true_iff in H as [Hl Hlines].
  destruct l as [fields comment | blank comment]; cbn [dataRows]; [|now apply IH].
  constructor; [|now apply IH].
  cbn [wellFormed] in Hl. apply andb_true_iff in Hl as [Hl _].
  apply andb_true_iff in Hl as [Hl _]. apply andb_true_iff in Hl as [Hne Hfields].
  split; [now destruct fields | exact Hfields].
Qed.

Lemma withoutComment_lines (delimiter : ascii) (lines : list fileLine) :
  forallb (wellFormed delimiter) lines = true ->
  forallb (wellFormed delimiter) (map withoutComment lines) = true
  /\ dataRows (map withoutComment lines) = dataRows lines.
Proof.
  induction lines as [|l lines IH]; [now split|].
  cbn [forallb map]. intros H. apply andb_true_iff in H as [Hl Hlines].
  destruct (IH Hlines) as [IH1 IH2]. rewrite IH1.
  destruct l as [fields comment | blank comment];
    cbn [withoutComment wellFormed dataRows commentOk] in *; rewrite IH2;
    apply andb_true_iff in Hl as [-> _]; now split.
Qed.

(** C7. A generated file is a header line, then lines that are data rows
    (fields without delimiter, `#` or line feed, joined by a one-byte
    delimiter that is no white space; the row not blank) or noise (blank
    text), each with an optional `#` comment.  [readCsv] yields one row of
    columns per data row, in order: as many rows as data rows, each with the
    field count of its data row, each column a string, the field itself when
    the row has no white space at either end; the same table is read when the
    comments are left out; the header, whatever it holds, and the noise lines
    give no row. *)
Theorem C7_generated_file_round_trip
  (fs : fileSystem) (filename : string) (delimiter : ascii) (header : string)
  (lines : list fileLine) :
  delimiterOk delimiter = true ->
  occurs "010" header = false ->
  forallb (wellFormed delimiter) lines = true ->
  fs filename = inl (renderFile delimiter header lines) ->
  exists data : table,
    readCsv fs filename (Some (String delimiter "")) = inl data
    /\ List.length data = List.length (dataRows lines)
    /\ Forall2 (fun (fields : list string) (columns : row) =>
                  List.length columns = List.length fields
                  /\ (trim (join (String delimiter "") fields)
                      = join (String delimiter "") fields -> columns = fields))
               (dataRows lines) data
    /\ parseCsv (renderFile delimiter header (map withoutComment lines))
                (String delimiter "") = data
    /\ (delimiter = ","%char -> readCsv fs filename None = inl data).
Proof.
  intros Hd Hheader Hlines Hfs.
  exists (map (fun fields =>
                 split (String delimiter "") (trim (join (String delimiter "") fields)))
              (dataRows lines)).
  destruct (withoutComment_lines delimiter lines Hlines) as [Hplain Hsame].
  unfold readCsv. rewrite Hfs.
  rewrite (parseCsv_generated delimiter header lines Hd Hheader Hlines).
  rewrite (parseCsv_generated delimiter header _ Hd Hheader Hplain), Hsame.
  repeat split.
  - apply length_map.
  - pose proof (dataRows_wellFormed delimiter lines Hlines) as Hrows. clear Hsame.
    induction Hrows as [|fields rows [Hne Hfields] _ IH]; cbn [map].
    + constructor.
    + constructor; [now apply columns_of_fields | exact IH].
  - intros ->. now rewrite (parseCsv_generated _ header lines Hd Hheader Hlines).
Qed.

(** An airports file with a header, two data rows, one of them with a
    comment, a line that is only a comment and an empty last line. *)
Lemma C7_witness :
  exists data : table,
    readCsv (fun _ => inl ("code,name,from MAN,from LGW" ++ String "010"
                           ("JFK,John F Kennedy International,5376,5583# busiest"
                            ++ String "010"
                            ("  # no flights to here" ++ String "010"
                             ("ORY,Paris-Orly,610,325" ++ String "010" "")))))
            "airports.csv" (Some ",") = inl data
    /\ List.length data = 2%nat
    /\ Forall2 (fun (fields : list string) (columns : row) =>
                  List.length columns = List.length fields
                  /\ (trim (join "," fields) = join "," fields -> columns = fields))
               [ ["JFK"; "John F Kennedy International"; "5376"; "5583"];
                 ["ORY"; "Paris-Orly"; "610"; "325"] ] data
    /\ parseCsv ("code,name,from MAN,from LGW" ++ String "010"
                 ("JFK,John F Kennedy International,5376,5583" ++ String "010"
                  ("  " ++ String "010" ("ORY,Paris-Orly,610,325" ++ String "010" ""))))
                "," = data
    /\ (","%char = ","%char ->
        readCsv (fun _ => inl ("code,name,from MAN,from LGW" ++ String "010"
                               ("JFK,John F Kennedy International,5376,5583# busiest"
                                ++ String "010"
                                ("  # no flights to here" ++ String "010"
                                 ("ORY,Paris-Orly,610,325" ++ String "010" "")))))
                "airports.csv" None = inl data).
Proof.
  exact (C7_generated_file_round_trip
           (fun _ => inl (renderFile "," "code,name,from MAN,from LGW"
                            [ DataRow ["JFK"; "John F Kennedy International"; "5376"; "5583"]
                                      (Some " busiest");
                              NoiseLine "  " (Some " no flights to here");
                              DataRow ["ORY"; "Paris-Orly"; "610"; "325"] None;
                              NoiseLine "" None ]))
           "airports.csv" "," "code,name,from MAN,from LGW"
           [ DataRow ["JFK"; "John F Kennedy International"; "5376"; "5583"]
                     (Some " busiest");
             NoiseLine "  " (Some " no flights to here");
             DataRow ["ORY"; "Paris-Orly"; "610"; "325"] None;
             NoiseLine "" None ]
           eq_refl eq_refl eq_refl eq_refl).
Defined.

(** *** Negative bookings *)

(** When no class has more booked seats than its capacity, the total booked
    is not greater than the total capacity: the sums of lines 47 and 55 are
    taken in the same order, and addition is monotone. *)
Lemma total_within_capacity (flight aircraftData : row) :
  (forall c, gt (booked c flight) (capacity c aircraftData) = false) ->
  gt (totalBooked flight) (totalCapacity aircraftData) = false.
Proof.
  intros H. unfold gt, totalBooked, totalCapacity in *.
  apply Binary64Facts.add_monotone; [apply Binary64Facts.add_monotone|]; apply H.
Qed.

(** C10. A request whose destination and aircraft are found, the aircraft
    row being a row of the aircraft table with its cost figure, whose
    distance is within range, and whose booked seats compare no greater than
    the capacity class by class, is given a result: the total is then within
    the total capacity, and no step of the evaluator compares a booked count
    with zero, so a negative count is priced like any other. *)
Theorem C10_no_lower_bound_on_bookings
  (flight : row) (airports aeroplanes : table) (airportData aircraftData : row)
  (costFigure : string) :
  airportOf flight airports = Some airportData ->
  aircraftOf flight aeroplanes = Some aircraftData ->
  aircraftData !! 1 = Some costFigure ->
  gt (selectedDistance flight airportData) (maxRange aircraftData) = false ->
  (forall c, gt (booked c flight) (capacity c aircraftData) = false) ->
  validateAndCalculateProfit flight airports aeroplanes
  = inl {| flightDetails := flight;
           income := toFixed 2 (totalIncome flight);
           cost := toFixed 2 (totalCost flight airportData costFigure);
           profit := toFixed 2 (totalIncome flight
                                - totalCost flight airportData costFigure)%float |}.
Proof.
  intros Hairport Haircraft Hcost Hrange Hclasses.
  rewrite evaluate_unfold, Hairport. unfold evaluateAtDistance.
  rewrite Haircraft, Hcost, Hrange, (total_within_capacity _ _ Hclasses), !Hclasses.
  reflexivity.
Qed.

(** Five economy seats fewer than none on the first valid request of the
    tests: the result has a negative income and a negative cost. *)
Lemma C10_witness :
  validateAndCalculateProfit
    ["MAN"; "JFK"; "Large narrow body"; "-5"; "0"; "0"; "399"; "999"; "1899"]
    TestData.airportsData TestData.aeroplanesData
  = inl {| flightDetails :=
             ["MAN"; "JFK"; "Large narrow body"; "-5"; "0"; "0"; "399"; "999"; "1899"];
           income := toFixed 2 (-1995)%float;
           cost :=
             toFixed 2
               (totalCost
                  ["MAN"; "JFK"; "Large narrow body"; "-5"; "0"; "0"; "399"; "999"; "1899"]
                  ["JFK"; "John F Kennedy International"; "5376"; "5583"] "£7");
           profit :=
             toFixed 2
               (-1995
                - totalCost
                    ["MAN"; "JFK"; "Large narrow body"; "-5"; "0"; "0"; "399"; "999"; "1899"]
                    ["JFK"; "John F Kennedy International"; "5376"; "5583"] "£7")%float |}.
Proof.
  exact (C10_no_lower_bound_on_bookings
           ["MAN"; "JFK"; "Large narrow body"; "-5"; "0"; "0"; "399"; "999"; "1899"]
           TestData.airportsData TestData.aeroplanesData
           ["JFK"; "John F Kennedy International"; "5376"; "5583"]
           ["Large narrow body"; "£7"; "5600"; "180"; "20"; "4"] "£7"
           eq_refl eq_refl eq_refl eq_refl
           (fun c => match c with Economy => eq_refl | Business => eq_refl
                             | FirstClass => eq_refl end)).
Defined.

(** ** Further properties of the code *)

(** *** readCsv *)

Lemma split_first_line (header rest : string) :
  occurs "010" header = false ->
  split (String "010" "") (header ++ String "010" rest)
  = header :: split (String "010" "") rest.
Proof. intros H. unfold split. now apply splitOn_first. Qed.

(** X2. The first line of a file never gives a row, whatever it holds: a
    file parses as the file with its first line emptied, and a file of one
    line parses to the empty table. *)
Theorem parseCsv_discards_first_line (header rest delimiter : string) :
  occurs "010" header = false ->
  parseCsv (header ++ String "010" rest) delimiter
  = parseCsv (String "010" rest) delimiter
  /\ parseCsv header delimiter = [].
Proof.
  intros H. unfold parseCsv. split.
  - pose proof (split_first_line "" rest eq_refl) as Hempty. cbn [append] in Hempty.
    now rewrite (split_first_line header rest H), Hempty.
  - unfold split. now rewrite (splitOn_absent "010" header H).
Qed.

Lemma parseCsv_discards_first_line_witness :
  parseCsv ("JFK,New York,5376,5583" ++ String "010" "ORY,Paris-Orly,610,325") ","
  = parseCsv (String "010" "ORY,Paris-Orly,610,325") ","
  /\ parseCsv "JFK,New York,5376,5583" "," = [].
Proof.
  exact (parseCsv_discards_first_line "JFK,New York,5376,5583" "ORY,Paris-Orly,610,325"
           "," eq_refl).
Defined.

Lemma units_nonempty (s : string) : s <> EmptyString -> units s <> [].
Proof. destruct s; [congruence | discriminate]. Qed.

Lemma readRow_columns (delimiter line : string) (columns : row) :
  readRow delimiter line = Some columns -> columns <> [].
Proof.
  unfold readRow.
  destruct (if includes "#" (trim line)
            then trim (hd "" (split "#" (trim line))) else trim line)
    as [|c text] eqn:Htext; [discriminate|].
  intros [= <-]. unfold split. destruct delimiter.
  - discriminate.
  - apply splitOn_nonempty.
Qed.

(** X3. Every row of a table read by [readCsv] has at least one column,
    whatever the content of the file and the delimiter, the empty delimiter
    included. *)
Theorem parseCsv_rows_have_columns (fileContent delimiter : string) :
  Forall (fun columns : row => columns <> []) (parseCsv fileContent delimiter).
Proof.
  unfold parseCsv. rewrite fold_left_choose. cbn [app].
  induction (tl (split (String "010" "") fileContent)) as [|line lines IH];
    [constructor|].
  cbn [choose]. destruct (readRow delimiter line) as [columns|] eqn:Hrow; [|exact IH].
  constructor; [|exact IH]. now apply (readRow_columns delimiter line).
Qed.

(** X4. What follows the first `#` of a line is never read: not as columns,
    not as a further comment. *)
Theorem readRow_cuts_at_first_hash (delimiter text rest : string) :
  occurs "#" text = false ->
  readRow delimiter (text ++ String "#" rest) = readRow delimiter text.
Proof.
  intros H.
  pose proof (readRow_text delimiter text (Some rest) H) as Hcut.
  pose proof (readRow_text delimiter text None H) as Hplain.
  cbn [commentSuffix] in Hcut, Hplain. rewrite append_empty in Hplain.
  now rewrite Hcut, Hplain.
Qed.

Lemma readRow_cuts_at_first_hash_witness :
  readRow "," ("LGW,ORY,Medium narrow body" ++ String "#" ",120,8,0 # see #2")
  = readRow "," "LGW,ORY,Medium narrow body".
Proof.
  exact (readRow_cuts_at_first_hash "," "LGW,ORY,Medium narrow body"
           ",120,8,0 # see #2" eq_refl).
Defined.

(** *** validateAndCalculateProfit *)

Lemma find_none_iff {A : Type} (p : A -> bool) (xs : list A) :
  find p xs = None <-> forall x, In x xs -> p x = false.
Proof.
  unfold find. split.
  - apply find_none.
  - induction xs as [|x xs IH]; [reflexivity|]. intros H. simpl.
    rewrite (H x) by now left. apply IH. intros y Hy. apply H. now right.
Qed.

Lemma strictEq_false (a b : option string) : a <> b -> strictEq a b = false.
Proof.
  intros H. destruct (strictEq a b) eqn:E; [|reflexivity].
  now apply strictEq_true in E.
Qed.

(** X5. A request whose destination is the key of no row of the airport
    table fails with the error on the airport code, whatever its other
    fields and whatever the aircraft table. *)
Theorem unknown_destination_is_reported (flight : row) (airports aeroplanes : table) :
  (forall airportData, In airportData airports -> airportData !! 0 <> flight !! 1) ->
  validateAndCalculateProfit flight airports aeroplanes
  = inr (InvalidAirportCode (flight !! 1))
  /\ message (InvalidAirportCode (flight !! 1))
     = "Invalid airport code: " ++ toStr (flight !! 1).
Proof.
  intros Hnone. split; [|reflexivity].
  rewrite evaluate_unfold.
  assert (H : airportOf flight airports = None).
  { apply find_none_iff. intros x Hx. now apply strictEq_false, Hnone. }
  now rewrite H.
Qed.

Lemma unknown_destination_is_reported_witness :
  validateAndCalculateProfit (nth 2 TestData.invalidFlightData [])
    TestData.airportsData []
  = inr (InvalidAirportCode (Some "INVALID"))
  /\ message (InvalidAirportCode (Some "INVALID")) = "Invalid airport code: INVALID".
Proof.
  refine (unknown_destination_is_reported (nth 2 TestData.invalidFlightData [])
            TestData.airportsData [] _).
  intros airportData [<-|[<-|[]]]; discriminate.
Defined.

(** X6. A request whose destination is found and whose aircraft type is
    the key of no row of the aircraft table fails with the error on the
    aircraft type, whatever its seats and prices. *)
Theorem unknown_aircraft_is_reported
  (flight : row) (airports aeroplanes : table) (airportData : row) :
  airportOf flight airports = Some airportData ->
  (forall aircraftData, In aircraftData aeroplanes -> aircraftData !! 0 <> flight !! 2) ->
  validateAndCalculateProfit flight airports aeroplanes
  = inr (InvalidAircraftType (flight !! 2))
  /\ message (InvalidAircraftType (flight !! 2))
     = "Invalid aircraft type: " ++ toStr (flight !! 2).
Proof.
  intros Hairport Hnone. split; [|reflexivity].
  rewrite evaluate_unfold, Hairport. unfold evaluateAtDistance.
  assert (H : aircraftOf flight aeroplanes = None).
  { apply find_none_iff. intros x Hx. now apply strictEq_false, Hnone. }
  now rewrite H.
Qed.

Lemma unknown_aircraft_is_reported_witness :
  validateAndCalculateProfit
    ["MAN"; "JFK"; "Airship"; "150"; "12"; "2"; "399"; "999"; "1899"]
    TestData.airportsData TestData.aeroplanesData
  = inr (InvalidAircraftType (Some "Airship"))
  /\ message (InvalidAircraftType (Some "Airship")) = "Invalid aircraft type: Airship".
Proof.
  refine (unknown_aircraft_is_reported
            ["MAN"; "JFK"; "Airship"; "150"; "12"; "2"; "399"; "999"; "1899"]
            TestData.airportsData TestData.aeroplanesData
            ["JFK"; "John F Kennedy International"; "5376"; "5583"] eq_refl _).
  intros aircraftData [<-|[<-|[]]]; discriminate.
Defined.

(** X7. The result of a successful evaluation carries the request itself,
    unchanged. *)
Theorem result_echoes_request
  (flight : row) (airports aeroplanes : table) (r : result) :
  validateAndCalculateProfit flight airports aeroplanes = inl r ->
  flightDetails r = flight.
Proof.
  rewrite evaluate_unfold. unfold evaluateAtDistance.
  destruct (airportOf flight airports); [|discriminate].
  destruct (aircraftOf flight aeroplanes) as [aircraftData|]; [|discriminate].
  destruct (aircraftData !! 1); [|discriminate].
  gate_cases; try discriminate. now intros [= <-].
Qed.

Lemma result_echoes_request_witness :
  flightDetails {| flightDetails := nth 0 TestData.validFlightData [];
                   income := "75636.00"; cost := "61716.48"; profit := "13919.52" |}
  = ["MAN"; "JFK"; "Large narrow body"; "150"; "12"; "2"; "399"; "999"; "1899"].
Proof.
  exact (result_echoes_request (nth 0 TestData.validFlightData [])
           TestData.airportsData TestData.aeroplanesData
           {| flightDetails := nth 0 TestData.validFlightData [];
              income := "75636.00"; cost := "61716.48"; profit := "13919.52" |}
           eq_refl).
Defined.

(** X8. The evaluator reads the first nine fields of a request and no
    other: fields after the ninth change neither the figures nor the
    error. *)
Theorem fields_after_the_ninth_are_ignored
  (flight extra : row) (airports aeroplanes : table) :
  (9 <= List.length flight)%nat ->
  figures (validateAndCalculateProfit (flight ++ extra)%list airports aeroplanes)
  = figures (validateAndCalculateProfit flight airports aeroplanes).
Proof.
  intros Hlen.
  assert (H : forall i, (i < 9)%nat -> (flight ++ extra)%list !! i = flight !! i)
    by (intros i Hi; apply nth_error_app1; lia).
  unfold validateAndCalculateProfit.
  rewrite (H 0%nat), (H 1%nat), (H 2%nat), (H 3%nat), (H 4%nat), (H 5%nat),
    (H 6%nat), (H 7%nat), (H 8%nat) by lia.
  destruct (find (fun row => strictEq (row !! 0) (flight !! 1)) airports)
    as [airportData|]; [|reflexivity].
  destruct (find (fun row => strictEq (row !! 0) (flight !! 2)) aeroplanes)
    as [aircraftData|]; [|reflexivity].
  destruct (aircraftData !! 1); [|reflexivity].
  gate_cases; reflexivity.
Qed.

Lemma fields_after_the_ninth_are_ignored_witness :
  figures (validateAndCalculateProfit
             (nth 0 TestData.validFlightData [] ++ ["-1"; "checked"])%list
             TestData.airportsData TestData.aeroplanesData)
  = figures (validateAndCalculateProfit (nth 0 TestData.validFlightData [])
               TestData.airportsData TestData.aeroplanesData).
Proof.
  apply fields_after_the_ninth_are_ignored. vm_compute. lia.
Defined.

(** X9. The evaluator throws the TypeError of line 42 exactly when the
    destination and the aircraft are found and the aircraft row has no
    second field. *)
Theorem type_error_iff_no_cost_figure (flight : row) (airports aeroplanes : table) :
  validateAndCalculateProfit flight airports aeroplanes = inr NoCostFigure
  <-> exists airportData aircraftData,
        airportOf flight airports = Some airportData
        /\ aircraftOf flight aeroplanes = Some aircraftData
        /\ (List.length aircraftData <= 1)%nat.
Proof.
  rewrite evaluate_unfold. unfold evaluateAtDistance. split.
  - destruct (airportOf flight airports) as [airportData|]; [|discriminate].
    destruct (aircraftOf flight aeroplanes) as [aircraftData|]; [|discriminate].
    destruct (aircraftData !! 1) eqn:Hcost.
    + gate_cases; discriminate.
    + intros _. exists airportData, aircraftData. repeat split.
      now apply nth_error_None.
  - intros (airportData & aircraftData & -> & -> & Hlen).
    apply nth_error_None in Hlen. now rewrite Hlen.
Qed.

(** X18. The total check never rejects a request whose classes all fit:
    when the error is the one on the total, the booked seats of some class
    are greater than that class's capacity. *)
Theorem total_error_needs_an_overbooked_class
  (flight : row) (airports aeroplanes : table) (totalSeatsBooked totalSeats : number) :
  validateAndCalculateProfit flight airports aeroplanes
  = inr (TooManyTotalSeats totalSeatsBooked totalSeats) ->
  exists aircraftData c,
    aircraftOf flight aeroplanes = Some aircraftData
    /\ gt (booked c flight) (capacity c aircraftData) = true.
Proof.
  rewrite evaluate_unfold. unfold evaluateAtDistance.
  destruct (airportOf flight airports); [|discriminate].
  destruct (aircraftOf flight aeroplanes) as [aircraftData|]; [|discriminate].
  destruct (aircraftData !! 1); [|discriminate].
  destruct (gt _ (maxRange aircraftData)); [discriminate|].
  destruct (gt (totalBooked flight) (totalCapacity aircraftData)) eqn:Htotal.
  - intros _. exists aircraftData.
    destruct (gt (booked Economy flight) (capacity Economy aircraftData)) eqn:He;
      [now exists Economy|].
    destruct (gt (booked Business flight) (capacity Business aircraftData)) eqn:Hb;
      [now exists Business|].
    destruct (gt (booked FirstClass flight) (capacity FirstClass aircraftData)) eqn:Hf;
      [now exists FirstClass|].
    rewrite total_within_capacity in Htotal; [discriminate|].
    now intros [].
  - gate_cases; discriminate.
Qed.

Lemma total_error_needs_an_overbooked_class_witness :
  exists aircraftData c,
    aircraftOf (nth 1 TestData.invalidFlightData []) TestData.aeroplanesData
    = Some aircraftData
    /\ gt (booked c (nth 1 TestData.invalidFlightData [])) (capacity c aircraftData)
       = true.
Proof.
  exact (total_error_needs_an_overbooked_class
           (nth 1 TestData.invalidFlightData []) TestData.airportsData
           TestData.aeroplanesData 230%float 204%float eq_refl).
Defined.

(** *** Seat counts that are not numbers *)

Lemma add_nan_l (x : number) : (nan + x)%float = nan.
Proof. apply Prim2SF_inj. rewrite add_spec. reflexivity. Qed.

Lemma add_nan_r (x : number) : (x + nan)%float = nan.
Proof.
  apply Prim2SF_inj. rewrite add_spec. change (Prim2SF nan) with S754_nan.
  now destruct (Prim2SF x).
Qed.

Lemma mul_nan_l (x : number) : (nan * x)%float = nan.
Proof. apply Prim2SF_inj. rewrite mul_spec. reflexivity. Qed.

Lemma mul_nan_r (x : number) : (x * nan)%float = nan.
Proof.
  apply Prim2SF_inj. rewrite mul_spec. change (Prim2SF nan) with S754_nan.
  now destruct (Prim2SF x).
Qed.

Lemma sub_nan_l (x : number) : (nan - x)%float = nan.
Proof. apply Prim2SF_inj. rewrite sub_spec. reflexivity. Qed.

Lemma cabin_eq_dec (c c' : cabin) : {c = c'} + {c <> c'}.
Proof. decide equality. Qed.

Lemma totals_of_unparsable_seats (c : cabin) (flight : row) :
  booked c flight = nan -> totalBooked flight = nan /\ totalIncome flight = nan.
Proof.
  intros H. unfold totalBooked, totalIncome.
  destruct c; rewrite H;
    repeat first [rewrite mul_nan_l | rewrite add_nan_l | rewrite add_nan_r];
    now split.
Qed.

(** X10. A seat count that is not a number is not rejected: when the
    booked seats of a class do not parse, the total check and the check of
    that class compare with NaN and pass, and if the request passes the other
    checks it is given a result whose three figures read `NaN`. *)
Theorem unparsable_seats_are_not_rejected
  (c : cabin) (flight : row) (airports aeroplanes : table)
  (airportData aircraftData : row) (costFigure : string) :
  airportOf flight airports = Some airportData ->
  aircraftOf flight aeroplanes = Some aircraftData ->
  aircraftData !! 1 = Some costFigure ->
  gt (selectedDistance flight airportData) (maxRange aircraftData) = false ->
  booked c flight = nan ->
  (forall c', c' <> c -> gt (booked c' flight) (capacity c' aircraftData) = false) ->
  validateAndCalculateProfit flight airports aeroplanes
  = inl {| flightDetails := flight; income := "NaN"; cost := "NaN"; profit := "NaN" |}.
Proof.
  intros Hairport Haircraft Hcost Hrange Hnan Hothers.
  destruct (totals_of_unparsable_seats c flight Hnan) as [Htotal Hincome].
  assert (Hclasses : forall c', gt (booked c' flight) (capacity c' aircraftData) = false).
  { intros c'. destruct (cabin_eq_dec c' c) as [->|Hne]; [|now apply Hothers].
    rewrite Hnan. apply gt_nan_l. }
  rewrite evaluate_unfold, Hairport. unfold evaluateAtDistance.
  rewrite Haircraft, Hcost, Hrange, Htotal, gt_nan_l, !Hclasses, Hincome.
  now rewrite mul_nan_r, sub_nan_l.
Qed.

Lemma unparsable_seats_are_not_rejected_witness :
  validateAndCalculateProfit
    ["MAN"; "JFK"; "Large narrow body"; "150"; "a dozen"; "2"; "399"; "999"; "1899"]
    TestData.airportsData TestData.aeroplanesData
  = inl {| flightDetails :=
             ["MAN"; "JFK"; "Large narrow body"; "150"; "a dozen"; "2";
              "399"; "999"; "1899"];
           income := "NaN"; cost := "NaN"; profit := "NaN" |}.
Proof.
  refine (unparsable_seats_are_not_rejected Business
            ["MAN"; "JFK"; "Large narrow body"; "150"; "a dozen"; "2";
             "399"; "999"; "1899"]
            TestData.airportsData TestData.aeroplanesData
            ["JFK"; "John F Kennedy International"; "5376"; "5583"]
            ["Large narrow body"; "£7"; "5600"; "180"; "20"; "4"] "£7"
            eq_refl eq_refl eq_refl eq_refl eq_refl _).
  intros [] _; reflexivity.
Defined.

(** *** processFlights and writeResultsToFile *)

Lemma choose_in {A B : Type} (f : A -> option B) (xs : list A) (y : B) :
  In y (choose f xs) -> exists x, In x xs /\ f x = Some y.
Proof.
  induction xs as [|x xs IH]; [intros []|].
  cbn [choose]. destruct (f x) as [y'|] eqn:Hx.
  - intros [<-|Hin].
    + exists x. split; [now left | exact Hx].
    + destruct (IH Hin) as (x' & Hx' & Hy). exists x'. split; [now right | exact Hy].
  - intros Hin. destruct (IH Hin) as (x' & Hx' & Hy). exists x'. split; [now right | exact Hy].
Qed.

(** X11. Every result of a batch carries a request of the batch,
    unchanged, and is what the evaluator returns for it. *)
Theorem batch_results_belong_to_requests
  (flights : list row) (airports aeroplanes : table) :
  Forall (fun r => In (flightDetails r) flights
                   /\ validateAndCalculateProfit (flightDetails r) airports aeroplanes
                      = inl r)
         (results (processFlights flights airports aeroplanes)).
Proof.
  unfold processFlights. rewrite processFlights_from. cbn [results app].
  apply Forall_forall. intros r Hr.
  destruct (choose_in _ _ _ Hr) as (flight & Hin & Hsuccess).
  unfold successOf in Hsuccess.
  destruct (validateAndCalculateProfit flight airports aeroplanes) as [r'|] eqn:Heval;
    [|discriminate].
  injection Hsuccess as ->.
  assert (Hecho : flightDetails r = flight).
  { revert Heval. rewrite evaluate_unfold. unfold evaluateAtDistance.
    destruct (airportOf flight airports); [|discriminate].
    destruct (aircraftOf flight aeroplanes) as [aircraftData|]; [|discriminate].
    destruct (aircraftData !! 1); [|discriminate].
    gate_cases; try discriminate. now intros [= <-]. }
  rewrite Hecho. now split.
Qed.

Lemma forallb_map_compose {A B : Type} (p : B -> bool) (f : A -> B) (xs : list A) :
  forallb p (map f xs) = forallb (fun x => p (f x)) xs.
Proof. induction xs as [|x xs IH]; simpl; [reflexivity | now rewrite IH]. Qed.

(** X12. The text written by [writeResultsToFile] holds one line per
    result, in order, with no line feed after the last: split at the line
    feeds it gives the lines back.  The file name is the one passed. *)
Theorem report_text_splits_into_lines (results : list result) (filename : string) :
  results <> [] ->
  forallb (fun r => negb (occurs "010" (reportLine r))) results = true ->
  fst (writeResultsToFile results filename) = filename
  /\ split (String "010" "") (snd (writeResultsToFile results filename))
     = map reportLine results.
Proof.
  intros Hne Hlines. split; [reflexivity|]. cbn [writeResultsToFile snd].
  apply split_join.
  - now destruct results.
  - now rewrite forallb_map_compose.
Qed.

Lemma report_text_splits_into_lines_witness :
  fst (writeResultsToFile
         (results (processFlights TestData.validFlightData TestData.airportsData
                     TestData.aeroplanesData)) "report.txt") = "report.txt"
  /\ split (String "010" "")
       (snd (writeResultsToFile
               (results (processFlights TestData.validFlightData TestData.airportsData
                           TestData.aeroplanesData)) "report.txt"))
     = [ "Flight: MAN, JFK, Large narrow body, 150, 12, 2, 399, 999, 1899 | Income: £75636.00 | Cost: £61716.48 | Profit: £13919.52";
         "Flight: LGW, ORY, Medium narrow body, 120, 8, 0, 150, 450, 0 | Income: £21600.00 | Cost: £3328.00 | Profit: £18272.00" ].
Proof.
  refine (report_text_splits_into_lines
            (results (processFlights TestData.validFlightData TestData.airportsData
                        TestData.aeroplanesData)) "report.txt" _ _).
  - vm_compute. discriminate.
  - vm_compute. reflexivity.
Defined.

(** *** generateFlightReport *)

Lemma filesWritten_app (xs ys : list event) :
  filesWritten (xs ++ ys) = (filesWritten xs ++ filesWritten ys)%list.
Proof.
  induction xs as [|[text|text|filename content] xs IH]; simpl;
    [reflexivity | exact IH | exact IH | now rewrite IH].
Qed.

Lemma filesWritten_shown {A : Type} (f : A -> string) (xs : list A) :
  filesWritten (map (fun x => ConsoleLog (f x)) xs) = [].
Proof. induction xs as [|x xs IH]; [reflexivity | exact IH]. Qed.

Lemma filesWritten_reportErrors (heading : string) (errorMessages : list string) :
  filesWritten (reportErrors heading errorMessages) = [].
Proof.
  destruct errorMessages as [|m ms]; [reflexivity|].
  cbn [reportErrors filesWritten]. generalize (m :: ms). intros l.
  induction l as [|x xs IH]; [reflexivity | exact IH].
Qed.

(** X13. The tables are read in the order airports, aircraft, valid
    flights, invalid flights, and the first that cannot be read ends the
    run: the whole run is one line on the error stream, with the cause of
    that table, whatever the tables after it are; no flight is shown and no
    file is written, even when the unreadable table is the one of the invalid
    flights. *)
Theorem run_aborts_on_first_unreadable_table
  (fs : fileSystem) (writeFileSync : fileWriter)
  (readable rest : list string) (name cause : string) :
  ["airports.csv"; "aeroplanes.csv"; "valid_flight_data.csv"; "invalid_flight_data.csv"]
  = (readable ++ name :: rest)%list ->
  (forall earlier, In earlier readable -> exists content, fs earlier = inl content) ->
  fs name = inr cause ->
  generateFlightReport fs writeFileSync
  = [ConsoleError ("Error reading file: " ++ cause)].
Proof.
  intros Horder Hreadable Hcause. unfold generateFlightReport, readCsv.
  destruct readable as [|n1 [|n2 [|n3 [|n4 more]]]]; cbn [app] in Horder.
  - injection Horder as <- _. now rewrite Hcause.
  - injection Horder as <- <- _.
    destruct (Hreadable "airports.csv") as [c1 ->]; [cbn [In]; auto|].
    now rewrite Hcause.
  - injection Horder as <- <- <- _.
    destruct (Hreadable "airports.csv") as [c1 ->]; [cbn [In]; auto|].
    destruct (Hreadable "aeroplanes.csv") as [c2 ->]; [cbn [In]; auto|].
    now rewrite Hcause.
  - injection Horder as <- <- <- <- _.
    destruct (Hreadable "airports.csv") as [c1 ->]; [cbn [In]; auto|].
    destruct (Hreadable "aeroplanes.csv") as [c2 ->]; [cbn [In]; auto|].
    destruct (Hreadable "valid_flight_data.csv") as [c3 ->]; [cbn [In]; auto|].
    now rewrite Hcause.
  - destruct more; discriminate.
Qed.

(** The aircraft table and the table of the invalid flights cannot be read,
    each for its own cause: the cause printed is the one of the aircraft
    table. *)
Lemma run_aborts_on_first_unreadable_table_witness :
  generateFlightReport
    (fun name => if String.eqb name "aeroplanes.csv"
                 then inr "EACCES: permission denied"
                 else if String.eqb name "invalid_flight_data.csv"
                 then inr "ENOENT: no such file or directory"
                 else inl "header")
    (fun _ _ => None)
  = [ConsoleError "Error reading file: EACCES: permission denied"].
Proof.
  refine (run_aborts_on_first_unreadable_table
            (fun name => if String.eqb name "aeroplanes.csv"
                         then inr "EACCES: permission denied"
                         else if String.eqb name "invalid_flight_data.csv"
                         then inr "ENOENT: no such file or directory"
                         else inl "header")
            (fun _ _ => None)
            ["airports.csv"] ["valid_flight_data.csv"; "invalid_flight_data.csv"]
            "aeroplanes.csv" "EACCES: permission denied" eq_refl _ eq_refl).
  intros earlier [<-|[]]. now exists "header".
Defined.

(** X14. When the four tables are read and the report can be written, the
    run writes one file, `flight_profitability_report.txt`, holding the lines
    of the results of the valid flights: the batch of the invalid flights
    adds nothing to it, whatever it holds. *)
Theorem report_file_holds_the_valid_flights
  (fs : fileSystem) (writeFileSync : fileWriter)
  (airports aeroplanes validFlights invalidFlights : string) :
  fs "airports.csv" = inl airports ->
  fs "aeroplanes.csv" = inl aeroplanes ->
  fs "valid_flight_data.csv" = inl validFlights ->
  fs "invalid_flight_data.csv" = inl invalidFlights ->
  (forall content, writeFileSync "flight_profitability_report.txt" content = None) ->
  filesWritten (generateFlightReport fs writeFileSync)
  = [ ("flight_profitability_report.txt",
       join (String "010" "")
            (map reportLine
                 (results (processFlights (parseCsv validFlights ",")
                             (parseCsv airports ",") (parseCsv aeroplanes ","))))) ].
Proof.
  intros H1 H2 H3 H4 Hwrite. unfold generateFlightReport, readCsv.
  rewrite H1, H2, H3, H4. cbn [writeResultsToFile]. rewrite Hwrite.
  rewrite !filesWritten_app, filesWritten_shown, !filesWritten_reportErrors.
  reflexivity.
Qed.

Lemma report_file_holds_the_valid_flights_witness :
  filesWritten
    (generateFlightReport
       (fun name =>
          if String.eqb name "airports.csv"
          then inl ("code,name,MAN,LGW" ++ String "010" "ORY,Paris-Orly,610,325")
          else if String.eqb name "aeroplanes.csv"
          then inl ("type,cost,range,economy,business,first" ++ String "010"
                    "Medium narrow body,£8,2650,160,12,0")
          else if String.eqb name "valid_flight_data.csv"
          then inl ("from,to,type,e,b,f,pe,pb,pf" ++ String "010"
                    "LGW,ORY,Medium narrow body,120,8,0,150,450,0")
          else inl ("from,to,type,e,b,f,pe,pb,pf" ++ String "010"
                    "LGW,ORY,Medium narrow body,10,1,0,150,450,0"))
       (fun _ _ => None))
  = [ ("flight_profitability_report.txt",
       "Flight: LGW, ORY, Medium narrow body, 120, 8, 0, 150, 450, 0 | Income: £21600.00 | Cost: £3328.00 | Profit: £18272.00") ].
Proof.
  exact (report_file_holds_the_valid_flights
           (fun name =>
              if String.eqb name "airports.csv"
              then inl ("code,name,MAN,LGW" ++ String "010" "ORY,Paris-Orly,610,325")
              else if String.eqb name "aeroplanes.csv"
              then inl ("type,cost,range,economy,business,first" ++ String "010"
                        "Medium narrow body,£8,2650,160,12,0")
              else if String.eqb name "valid_flight_data.csv"
              then inl ("from,to,type,e,b,f,pe,pb,pf" ++ String "010"
                        "LGW,ORY,Medium narrow body,120,8,0,150,450,0")
              else inl ("from,to,type,e,b,f,pe,pb,pf" ++ String "010"
                        "LGW,ORY,Medium narrow body,10,1,0,150,450,0"))
           (fun _ _ => None) _ _ _ _ eq_refl eq_refl eq_refl eq_refl
           (fun _ => eq_refl)).
Defined.


(** *** Line endings *)

Lemma splitOn_last (d : ascii) (s : string) :
  splitOn (String d "") 0 (s ++ String d "")
  = (splitOn (String d "") 0 s ++ [EmptyString])%list.
Proof.
  induction s as [|c s IH].
  - cbn [append]. now rewrite splitOn_byte, Ascii.eqb_refl.
  - cbn [append]. rewrite !splitOn_byte, IH.
    destruct (Ascii.eqb d c); [reflexivity|].
    pose proof (splitOn_nonempty (String d "") 0 s).
    now destruct (splitOn (String d "") 0 s).
Qed.

(** X16. A line feed at the end of a file adds no row. *)
Theorem parseCsv_final_line_feed (fileContent delimiter : string) :
  parseCsv (fileContent ++ String "010" "") delimiter = parseCsv fileContent delimiter.
Proof.
  unfold parseCsv, split. rewrite splitOn_last, !fold_left_choose. cbn [app].
  pose proof (splitOn_nonempty (String "010" "") 0 fileContent).
  destruct (splitOn (String "010" "") 0 fileContent) as [|header lines]; [congruence|].
  cbn [tl app]. rewrite choose_app. cbn [choose].
  change (readRow delimiter "") with (@None row). now rewrite app_nil_r.
Qed.

(** Sequences with the byte [h] nowhere after their first byte. *)
Lemma stripPrefix_stop_after (h : ascii) (c p x : string) :
  x <> EmptyString ->
  match p with EmptyString => True | String _ p' => occurs h p' = false end ->
  stripPrefix p (x ++ String h c) = option_map (fun r => r ++ String h c) (stripPrefix p x).
Proof.
  intros Hx Hp. destruct p as [|a p]; [reflexivity|].
  destruct x as [|b x]; [congruence|]. simpl.
  destruct (Ascii.eqb a b); [now apply stripPrefix_stop | reflexivity].
Qed.

Lemma stripAny_stop_after (h : ascii) (c : string) (ps : list string) (x : string) :
  x <> EmptyString ->
  Forall (fun p => match p with
                   | EmptyString => True
                   | String _ p' => occurs h p' = false
                   end) ps ->
  stripAny ps (x ++ String h c) = option_map (fun r => r ++ String h c) (stripAny ps x).
Proof.
  intros Hx. induction 1 as [|p ps Hp _ IH]; [reflexivity|].
  simpl. rewrite (stripPrefix_stop_after h c p x Hx Hp).
  destruct (stripPrefix p x); [reflexivity | exact IH].
Qed.

Lemma whiteSpace_carriage_return :
  Forall (fun p => match p with
                   | EmptyString => True
                   | String _ p' => occurs "013" p' = false
                   end) whiteSpace.
Proof. unfold whiteSpace. repeat constructor. Qed.

Lemma stripAll_carriage_return (n : nat) (s : string) :
  (String.length s < n)%nat ->
  stripAll whiteSpace n (s ++ String "013" "")
  = match stripAll whiteSpace n s with
    | EmptyString => EmptyString
    | String a r => String a r ++ String "013" ""
    end.
Proof.
  revert s. induction n as [|n IH]; intros s Hlen; [lia|].
  destruct s as [|b s].
  - cbn [append]. destruct n; reflexivity.
  - cbn [stripAll].
    rewrite (stripAny_stop_after "013" "" whiteSpace (String b s))
      by (try discriminate; apply whiteSpace_carriage_return).
    destruct (stripAny whiteSpace (String b s)) as [r|] eqn:Hr; cbn [option_map].
    + apply IH. pose proof (stripAny_shorter _ _ _ whiteSpace_nonEmpty Hr). lia.
    + reflexivity.
Qed.

Lemma trimStart_carriage_return (s : string) :
  trimStart (s ++ String "013" "")
  = match trimStart s with
    | EmptyString => EmptyString
    | String a r => String a r ++ String "013" ""
    end.
Proof.
  unfold trimStart. rewrite stripAll_carriage_return by (rewrite length_append; simpl; lia).
  rewrite (stripAll_fuel whiteSpace _ (String.length s) s whiteSpace_nonEmpty);
    [reflexivity | rewrite length_append; lia | lia].
Qed.

Lemma trimEnd_carriage_return (s : string) :
  trimEnd (s ++ String "013" "") = trimEnd s.
Proof.
  unfold trimEnd. rewrite rev_string_append. cbn [rev_string append].
  rewrite length_append. cbn [String.length]. rewrite Nat.add_1_r.
  change (stripAll (map rev_string whiteSpace) (S (String.length s))
            (String "013" (rev_string s)))
    with (stripAll (map rev_string whiteSpace) (String.length s) (rev_string s)).
  reflexivity.
Qed.

Lemma trim_carriage_return (s : string) : trim (s ++ String "013" "") = trim s.
Proof.
  unfold trim. rewrite trimStart_carriage_return.
  destruct (trimStart s) as [|a r]; [reflexivity|]. apply trimEnd_carriage_return.
Qed.

Lemma readRow_carriage_return (delimiter line : string) :
  readRow delimiter (line ++ String "013" "") = readRow delimiter line.
Proof. unfold readRow. now rewrite trim_carriage_return. Qed.

Lemma split_lines_crlf (line : string) (lines : list string) :
  forallb (fun s => negb (occurs "010" s)) (line :: lines) = true ->
  split (String "010" "") (join (String "013" (String "010" "")) (line :: lines))
  = (map (fun s => (s ++ String "013" "")%string) (removelast (line :: lines))
     ++ [last (line :: lines) ""])%list.
Proof.
  revert line. induction lines as [|next lines IH]; intros line H.
  - cbn [forallb] in H. rewrite andb_true_r in H. apply negb_true_iff in H.
    unfold join, split. cbn [String.concat last removelast map app].
    now apply splitOn_absent.
  - cbn [forallb] in H. apply andb_true_iff in H as [Hline Hrest].
    apply negb_true_iff in Hline. specialize (IH next Hrest).
    unfold join, split in *.
    change (String.concat (String "013" (String "010" "")) (line :: next :: lines))
      with (line ++ String "013" (String "010"
              (String.concat (String "013" (String "010" "")) (next :: lines)))).
    replace (line ++ String "013" (String "010"
               (String.concat (String "013" (String "010" "")) (next :: lines))))
      with ((line ++ String "013" "") ++ String "010"
              (String.concat (String "013" (String "010" "")) (next :: lines)))
      by (now rewrite append_assoc).
    rewrite splitOn_first by (rewrite occurs_append, Hline; reflexivity).
    rewrite IH. reflexivity.
Qed.

(** X17. A file whose lines end in carriage return and line feed reads as
    the file with line feeds alone. *)
Theorem parseCsv_carriage_returns (lines : list string) (delimiter : string) :
  forallb (fun s => negb (occurs "010" s)) lines = true ->
  parseCsv (join (String "013" (String "010" "")) lines) delimiter
  = parseCsv (join (String "010" "") lines) delimiter.
Proof.
  intros H. destruct lines as [|line lines]; [reflexivity|].
  unfold parseCsv. rewrite (split_lines_crlf line lines H).
  rewrite split_join by (try discriminate; exact H).
  assert (E : line :: lines
              = (removelast (line :: lines) ++ [last (line :: lines) ""])%list)
    by (apply app_removelast_last; discriminate).
  set (body := removelast (line :: lines)) in *.
  set (final := last (line :: lines) "") in *.
  rewrite E, !fold_left_choose. cbn [app].
  destruct body as [|header rest]; [reflexivity|].
  cbn [map app tl]. rewrite !choose_app. f_equal. clear E.
  induction rest as [|x rest IH]; [reflexivity|].
  cbn [map choose]. now rewrite readRow_carriage_return, IH.
Qed.

Lemma parseCsv_carriage_returns_witness :
  parseCsv ("code,name,MAN,LGW" ++ String "013" (String "010"
            ("JFK,New York,5376,5583" ++ String "013" (String "010"
             "ORY,Paris-Orly,610,325")))) ","
  = parseCsv ("code,name,MAN,LGW" ++ String "010"
              ("JFK,New York,5376,5583" ++ String "010" "ORY,Paris-Orly,610,325")) ",".
Proof.
  exact (parseCsv_carriage_returns
           ["code,name,MAN,LGW"; "JFK,New York,5376,5583"; "ORY,Paris-Orly,610,325"]
           "," eq_refl).
Defined.
